(** * Panel flattening tool: a shallow embedding and its properties

  The development follows the three source files of the repository:

  - [src/task1/common/gui.py]: the file [Viewer] (module [Viewer]);
  - [src/task2/flattening_module/imageflattener.py]: input parsing
    (module [ParseInput]) and the annotation session [ImageFlattener]
    (module [Flattener]);
  - [src/task2/flattening_module/gui.py]: the earlier copy of the same
    session; its click handler and dimension dialog are the ones of
    [imageflattener.py] statement for statement, and its [save] differs
    in the attribute it reads for the suffix (see [Flattener.save]).

  Python integers are unbounded, so indices are [Z] and counters [nat].
  Python dictionaries keyed by strings are [gmap string _]. *)

From Stdlib Require Import ZArith QArith Qround Qfield String Ascii List Lia.
From stdpp Require Import base option list gmap strings pretty.

Open Scope string_scope.
Open Scope Z_scope.

(** ** Paths ([os.path]) *)

Module OsPath.

(** [Some t] when [s] holds a ['/'], [t] being what follows the last
    one. *)
Fixpoint after_last_slash (s : string) : option string :=
  match s with
  | EmptyString => None
  | String c r =>
      match after_last_slash r with
      | Some t => Some t
      | None => if Ascii.eqb c "/" then Some r else None
      end
  end.

(** [os.path.basename(p)]: [p[p.rfind('/') + 1:]]. *)
Definition basename (p : string) : string :=
  match after_last_slash p with
  | Some t => t
  | None => p
  end.

End OsPath.

(** ** The file viewer of task 1 *)

Module Viewer.

(** What [PIL.Image.open(filename).resize((x, y))] yields: the file it
    was read from and the size it was scaled to. *)
Record image := Image { im_file : string; im_x : Z; im_y : Z }.

Inductive exn :=
| ZeroDivisionError      (* [new_index % 0] *)
| IndexError             (* [self.files[self.index]] out of range *)
| FileNotFoundError.     (* [Image.open] on a path that is not on disk *)

(** The fields of [Viewer] that [next_frame] reads or writes. [evar] is
    the text of the search bar, [tkimage] the picture on the label. *)
Record viewer := {
  files : list string;
  index : Z;
  img_x : Z;
  img_y : Z;
  evar : string;
  tkimage : image
}.

Inductive outcome :=
| Returned (v : viewer)
| Raised (e : exn) (v : viewer).

Definition state_of (o : outcome) : viewer :=
  match o with Returned v | Raised _ v => v end.

Definition set_index (i : Z) (v : viewer) : viewer :=
  {| files := files v; index := i; img_x := img_x v; img_y := img_y v;
     evar := evar v; tkimage := tkimage v |}.

Definition show (name : string) (im : image) (v : viewer) : viewer :=
  {| files := files v; index := index v; img_x := img_x v; img_y := img_y v;
     evar := name; tkimage := im |}.

(** [get_image]: opens the file, which has to be on [disk], and resizes. *)
Definition get_image (disk : gset string) (v : viewer) (filename : string)
  : option image :=
  if decide (filename ∈ disk)
  then Some (Image filename (img_x v) (img_y v))
  else None.

(** [next_frame(new_index)]. The index is assigned first; the statements
    after it may still raise, with the index already moved. *)
Definition next_frame (disk : gset string) (v : viewer) (new_index : Z)
  : outcome :=
  let n := Z.of_nat (length (files v)) in
  if n =? 0 then Raised ZeroDivisionError v
  else
    let v1 := set_index (new_index mod n) v in
    match files v1 !! Z.to_nat (index v1) with
    | None => Raised IndexError v1
    | Some filename =>
        let basename := OsPath.basename filename in
        match get_image disk v1 filename with
        | None => Raised FileNotFoundError v1
        | Some im => Returned (show basename im v1)
        end
    end.

(** The two buttons. *)
Definition back_button (disk : gset string) (v : viewer) : outcome :=
  next_frame disk v (index v - 1).

Definition next_button (disk : gset string) (v : viewer) : outcome :=
  next_frame disk v (index v + 1).

(** A viewer on three files, showing the first. *)
Definition three_files : viewer :=
  {| files := ["a.png"; "b.png"; "c.png"]; index := 0; img_x := 500;
     img_y := 500; evar := "a.png"; tkimage := Image "a.png" 500 500 |}.

End Viewer.

(** ** Python's floats: [float(str)] and [round(float)]

    [float] is Python's, not the repository's. What it makes of the text
    of an entry box comes with the event that presses 'Done' (see
    [Flattener.event]): either the [ValueError] it raised or the float it
    returned. A finite float is the rational it stands for. *)

Module PyFloat.

Inductive float :=
| Finite (q : Q)
| Inf (negative : bool)
| NaN.

(** Both sides strictly positive is what the data model asks of
    dimensions; [positive] is the test on one side. *)
Definition positive (f : float) : Prop :=
  match f with
  | Finite q => (0 < q)%Q
  | Inf negative => negative = false
  | NaN => False
  end.

(** The outcome of [float(text)]. *)
Inductive parsed :=
| ValueError
| Value (x : float).

(** [round(x)] of a finite float: to the nearest integer, a tie going to
    the even neighbour. *)
Definition round (q : Q) : Z :=
  let f := Qfloor q in
  let r := (q - inject_Z f)%Q in
  match (r ?= 1 # 2)%Q with
  | Lt => f
  | Gt => f + 1
  | Eq => if Z.even f then f else f + 1
  end.

End PyFloat.

(** ** Input parsing ([_parse_input])

    [json.load] hands over one of the values below. A JSON object arrives
    as a Python [dict]: string keys, each once, in the order of the text. *)

Module ParseInput.

#[local] Unset Elimination Schemes.

Inductive json :=
| JNull
| JBool (b : bool)
| JInt (n : Z)
| JFloat (q : Q)
| JStr (s : string)
| JList (items : list json)
| JDict (fields : list (string * json)).

#[local] Set Elimination Schemes.

Inductive exn :=
| JsonFormatError_point      (* 'lists should contain lists of ints of len 2' *)
| JsonFormatError_value      (* "Json values should be lists" *)
| JsonFormatError_toplevel   (* 'Json should be formatted like a list or dict' *)
| IndexError                 (* [point[0]], [point[1]] out of range *)
| TypeError.                 (* unhashable key in [panels_in[key] = []] *)

Definition is_format_error (e : exn) : bool :=
  match e with
  | JsonFormatError_point | JsonFormatError_value | JsonFormatError_toplevel => true
  | IndexError | TypeError => false
  end.

Inductive result (A : Type) :=
| Return (a : A)
| Raise (e : exn).
Arguments Return {A} a.
Arguments Raise {A} e.

(** The dictionary under construction: keys in insertion order. Its keys
    are strings when the input is an object, and whatever hashable values
    the array holds when the input is an array. *)
Definition panels := list (json * list json).

(** [isinstance(x, int)]; [bool] is a subclass of [int]. *)
Definition isinstance_int (x : json) : bool :=
  match x with
  | JInt _ | JBool _ => true
  | _ => false
  end.

Definition isinstance_list (x : json) : bool :=
  match x with
  | JList _ => true
  | _ => false
  end.

(** The number a key compares as, for the keys that are numbers. *)
Definition key_number (k : json) : option Q :=
  match k with
  | JBool b => Some (if b then 1 else 0)%Q
  | JInt n => Some (inject_Z n)
  | JFloat q => Some q
  | _ => None
  end.

(** [k1 == k2] on hashable values. *)
Definition key_eqb (k1 k2 : json) : bool :=
  match k1, k2 with
  | JNull, JNull => true
  | JStr s1, JStr s2 => String.eqb s1 s2
  | _, _ =>
      match key_number k1, key_number k2 with
      | Some q1, Some q2 => Qeq_bool q1 q2
      | _, _ => false
      end
  end.

Definition hashable (k : json) : bool :=
  match k with
  | JList _ | JDict _ => false
  | _ => true
  end.

(** [d[k] = v] *)
Fixpoint setitem (d : panels) (k : json) (v : list json) : panels :=
  match d with
  | [] => [(k, v)]
  | (k', v') :: rest =>
      if key_eqb k' k then (k', v) :: rest else (k', v') :: setitem rest k v
  end.

(** [d[key]] on the input object. *)
Fixpoint getitem (fields : list (string * json)) (key : string) : option json :=
  match fields with
  | [] => None
  | (k, v) :: rest => if String.eqb k key then Some v else getitem rest key
  end.

(** The condition of the inner [if], its four conjuncts evaluated left to
    right; [value] is [images_input[key]]. *)
Definition point_ok (value : list json) (point : json) : result bool :=
  match point with
  | JList coords =>
      if (length value =? 2)%nat then
        match coords with
        | [] => Raise IndexError
        | c0 :: rest =>
            if isinstance_int c0 then
              match rest with
              | [] => Raise IndexError
              | c1 :: _ => Return (isinstance_int c1)
              end
            else Return false
        end
      else Return false
  | _ => Return false
  end.

(** [for point in images_input[key]: ...] *)
Fixpoint points_loop (key : string) (value : list json) (todo : list json)
    (panels_in : panels) : result panels :=
  match todo with
  | [] => Return panels_in
  | point :: rest =>
      match point_ok value point with
      | Raise e => Raise e
      | Return true => points_loop key value rest (setitem panels_in (JStr key) value)
      | Return false => Raise JsonFormatError_point
      end
  end.

(** [for key in images_input: ...] when the input is a [dict]. *)
Fixpoint dict_loop (images_input : list (string * json)) (keys : list string)
    (panels_in : panels) : result panels :=
  match keys with
  | [] => Return panels_in
  | key :: rest =>
      match getitem images_input key with
      | Some (JList value) =>
          match points_loop key value value (setitem panels_in (JStr key) []) with
          | Return panels_in' => dict_loop images_input rest panels_in'
          | Raise e => Raise e
          end
      | _ => Raise JsonFormatError_value
      end
  end.

(** [for key in images_input: panels_in[key] = []] when it is a [list]. *)
Fixpoint list_loop (keys : list json) (panels_in : panels) : result panels :=
  match keys with
  | [] => Return panels_in
  | key :: rest =>
      if hashable key then list_loop rest (setitem panels_in key [])
      else Raise TypeError
  end.

Definition _parse_input (images_input : json) : result panels :=
  match images_input with
  | JDict fields => dict_loop fields (map fst fields) []
  | JList items => list_loop items []
  | _ => Raise JsonFormatError_toplevel
  end.

(** *** The input schema, as the interface describes it *)

(** [[x, y]] with both integers *)
Definition coordinate_pair (p : json) : bool :=
  match p with
  | JList [JInt _; JInt _] => true
  | _ => false
  end.

(** (a) an array of image path strings *)
Definition path_array (j : json) : bool :=
  match j with
  | JList items => forallb (fun x => match x with JStr _ => true | _ => false end) items
  | _ => false
  end.

(** (b) an object from image path to an array of coordinate pairs *)
Definition hint_object (j : json) : bool :=
  match j with
  | JDict fields =>
      forallb (fun kv => match snd kv with
                         | JList pts => forallb coordinate_pair pts
                         | _ => false
                         end) fields
  | _ => false
  end.

Definition well_formed_input (j : json) : bool := path_array j || hint_object j.

(** *** Sample inputs *)

Definition one_pair : json :=
  JDict [("a.jpg", JList [JList [JInt 10; JInt 20]])].

Definition two_triples : json :=
  JDict [("a.jpg", JList [JList [JInt 1; JInt 2; JInt 3];
                          JList [JInt 4; JInt 5; JInt 6]])].

Definition two_short_points : json :=
  JDict [("a.jpg", JList [JList [JInt 1]; JList [JInt 2]])].

End ParseInput.


(** ** The annotation session ([ImageFlattener])

    The class keeps its own fields and inherits from [ImageProcessor] the
    list of paths, the output folder and the image on the canvas. The
    widgets that only draw (corner and panel markers, pan and zoom) are
    left out; a click arrives as the canvas point that [win_to_canvas]
    returned for it. *)

Module Flattener.

Definition point := (Z * Z)%type.

(** [(short, long)], as [done] stores them. *)
Definition dims := (PyFloat.float * PyFloat.float)%type.

(** The image on the canvas is either the one decoded from a source file
    or what [nPTransform.four_points_correct_aspect(img, rect, short, long)]
    returned; that function is not part of the sources at hand, so its
    result is kept as the call that produced it. *)
Inductive image :=
| Source (path : string)
| Flat (img : image) (rect : list point) (short long : PyFloat.float).

Definition is_flat (img : image) : bool :=
  match img with
  | Flat _ _ _ _ => true
  | Source _ => false
  end.

(** A dimension pop-up that is open. The 'Use Last' button is packed when
    the pop-up is created, or not at all. *)
Record dialog := { use_last : bool }.

Record session := {
  (* ImageFlattener *)
  img_flattened : bool;                  (* self._img_flattened *)
  num_saved : nat;                       (* self.__num_saved *)
  dim : option dims;                     (* self.__dim *)
  clicks : list point;                   (* self.__clicks *)
  saved : gmap string (option dims);     (* self.__saved *)
  (* ImageProcessor *)
  curr_path : string;                    (* self.curr_path *)
  pending : list string;                 (* the paths after curr_path *)
  save_to : string;
  cv_img : image;                        (* self.movable_image.cv_img *)
  finished : bool;                       (* the list of paths is exhausted *)
  (* the world around the session *)
  written : list (string * image);       (* image files written, oldest first *)
  popups : list dialog;                  (* dimension pop-ups now open *)
  stdout : list string                   (* lines printed *)
}.

Definition set_img_flattened (x : bool) (s : session) : session :=
  Build_session x (num_saved s) (dim s) (clicks s) (saved s) (curr_path s)
    (pending s) (save_to s) (cv_img s) (finished s) (written s) (popups s)
    (stdout s).

Definition set_num_saved (x : nat) (s : session) : session :=
  Build_session (img_flattened s) x (dim s) (clicks s) (saved s) (curr_path
    s) (pending s) (save_to s) (cv_img s) (finished s) (written s) (popups s)
    (stdout s).

Definition set_dim (x : option dims) (s : session) : session :=
  Build_session (img_flattened s) (num_saved s) x (clicks s) (saved s)
    (curr_path s) (pending s) (save_to s) (cv_img s) (finished s) (written s)
    (popups s) (stdout s).

Definition set_clicks (x : list point) (s : session) : session :=
  Build_session (img_flattened s) (num_saved s) (dim s) x (saved s)
    (curr_path s) (pending s) (save_to s) (cv_img s) (finished s) (written s)
    (popups s) (stdout s).

Definition set_saved (x : gmap string (option dims)) (s : session) : session :=
  Build_session (img_flattened s) (num_saved s) (dim s) (clicks s) x
    (curr_path s) (pending s) (save_to s) (cv_img s) (finished s) (written s)
    (popups s) (stdout s).

Definition set_curr_path (x : string) (s : session) : session :=
  Build_session (img_flattened s) (num_saved s) (dim s) (clicks s) (saved s)
    x (pending s) (save_to s) (cv_img s) (finished s) (written s) (popups s)
    (stdout s).

Definition set_pending (x : list string) (s : session) : session :=
  Build_session (img_flattened s) (num_saved s) (dim s) (clicks s) (saved s)
    (curr_path s) x (save_to s) (cv_img s) (finished s) (written s) (popups
    s) (stdout s).

Definition set_save_to (x : string) (s : session) : session :=
  Build_session (img_flattened s) (num_saved s) (dim s) (clicks s) (saved s)
    (curr_path s) (pending s) x (cv_img s) (finished s) (written s) (popups
    s) (stdout s).

Definition set_cv_img (x : image) (s : session) : session :=
  Build_session (img_flattened s) (num_saved s) (dim s) (clicks s) (saved s)
    (curr_path s) (pending s) (save_to s) x (finished s) (written s) (popups
    s) (stdout s).

Definition set_finished (x : bool) (s : session) : session :=
  Build_session (img_flattened s) (num_saved s) (dim s) (clicks s) (saved s)
    (curr_path s) (pending s) (save_to s) (cv_img s) x (written s) (popups s)
    (stdout s).

Definition set_written (x : list (string * image)) (s : session) : session :=
  Build_session (img_flattened s) (num_saved s) (dim s) (clicks s) (saved s)
    (curr_path s) (pending s) (save_to s) (cv_img s) (finished s) x (popups
    s) (stdout s).

Definition set_popups (x : list dialog) (s : session) : session :=
  Build_session (img_flattened s) (num_saved s) (dim s) (clicks s) (saved s)
    (curr_path s) (pending s) (save_to s) (cv_img s) (finished s) (written s)
    x (stdout s).

Definition set_stdout (x : list string) (s : session) : session :=
  Build_session (img_flattened s) (num_saved s) (dim s) (clicks s) (saved s)
    (curr_path s) (pending s) (save_to s) (cv_img s) (finished s) (written s)
    (popups s) x.

(** Exceptions that leave a callback. Tk reports them and goes on
    dispatching events. *)
Inductive exn :=
| AssertionError     (* [assert len(self.__clicks) == 4] *)
| TypeError.         (* [self.dim[0]] with [self.dim] still [None] *)

Inductive outcome :=
| Normal (s : session)
| Raised (e : exn) (s : session).

Definition state_of (o : outcome) : session :=
  match o with Normal s | Raised _ s => s end.

(** *** What [ImageProcessor] provides *)

(** [stem] and [.ext] of a file name: split at its last dot. *)
Fixpoint split_ext (name : string) : string * string :=
  match name with
  | EmptyString => ("", "")
  | String c r =>
      let '(stem, ext) := split_ext r in
      match ext with
      | EmptyString =>
          if Ascii.eqb c "." then ("", name) else (String c stem, "")
      | _ => (String c stem, ext)
      end
  end.

(** Modelled from the spec: [ImageProcessor.save_img_to_folder_with_extra]
    is missing from the sources. The interface section names the files
    written [<original-stem>_flat[_<n>].<ext>] under the output folder
    (the scenario has [<out>/a_flat.jpg] for [a.jpg]); [extra] is the
    [_flat[_<n>]] part. *)
Definition output_path (folder path extra : string) : string :=
  let '(stem, ext) := split_ext (OsPath.basename path) in
  folder +:+ "/" +:+ stem +:+ extra +:+ ext.

(** Modelled from the spec: writes the image on the canvas to
    [output_path] and returns that path. *)
Definition save_img_to_folder_with_extra (extra : string) (s : session)
  : string * session :=
  let path := output_path (save_to s) (curr_path s) extra in
  (path, set_written (written s ++ [(path, cv_img s)])%list s).

(** Modelled from the spec: [ImageProcessor.reload] is missing from the
    sources; reload discards the working image and restores the original
    source image. *)
Definition ImageProcessor_reload (s : session) : session :=
  set_cv_img (Source (curr_path s)) s.

(** *** The methods of [ImageFlattener] *)

(** [_request_dims]: a new pop-up, with 'Use Last' iff dimensions are
    stored. Its [mainloop] goes on dispatching the events that follow. *)
Definition _request_dims (s : session) : session :=
  set_popups (popups s ++ [{| use_last := bool_decide (is_Some (dim s)) |}])%list s.

Definition left_mouse_down (p : point) (s : session) : session :=
  if img_flattened s then s
  else
    let s := set_clicks (clicks s ++ [p])%list s in
    if (4 <=? length (clicks s))%nat
    then _request_dims (set_img_flattened true s)
    else s.

Definition _flatten_img (s : session) : outcome :=
  if (length (clicks s) =? 4)%nat then
    match dim s with
    | None => Raised TypeError s
    | Some (short, long) =>
        Normal (set_clicks [] (set_cv_img (Flat (cv_img s) (clicks s) short long) s))
    end
  else Raised AssertionError s.

Definition reload (s : session) : session :=
  set_clicks [] (set_img_flattened false (ImageProcessor_reload s)).

(** Modelled from the spec: [ImageProcessor.load_next_img_or_end] is
    missing from the sources. Next-image advances to the next path of the
    list, the corner set being emptied as on a reload; when the list is
    exhausted the session is done. *)
Definition load_next_img_or_end (s : session) : session :=
  match pending s with
  | [] => set_finished true s
  | p :: rest => reload (set_pending rest (set_curr_path p s))
  end.

Definition next_file (s : session) : session :=
  load_next_img_or_end (set_num_saved 0 (set_img_flattened false s)).

(** The suffix [save] asks for: [f'_flat_{n}'] once something was saved
    from this image, [f'_flat'] before. *)
Definition flat_suffix (n : nat) : string :=
  if (0 <? n)%nat then "_flat_" +:+ pretty n else "_flat".

(** [save] of [imageflattener.py]. The copy in [gui.py] formats
    [self._num_saved] for the suffix, where the counter it keeps is
    [self.__num_saved]; that copy is not followed here. *)
Definition save (s : session) : session :=
  if img_flattened s then
    let '(path, s) := save_img_to_folder_with_extra (flat_suffix (num_saved s)) s in
    let s := set_saved (<[path := dim s]> (saved s)) s in
    let s := set_num_saved (num_saved s + 1) s in
    reload s
  else s.

Definition not_a_number : string := "That's not a number.".

Definition print (line : string) (s : session) : session :=
  set_stdout (stdout s ++ [line])%list s.

(** [pop.destroy()] for the pop-up at position [i]. *)
Definition destroy (i : nat) (s : session) : session :=
  set_popups (delete i (popups s)) s.

(** [done], the command of the 'Done' button of pop-up [i]; [short] and
    [long] are what [float(short_str)] and [float(long_str)] come to for
    the texts the two entries hold. *)
Definition done (i : nat) (short long : PyFloat.parsed) (s : session) : outcome :=
  match short with
  | PyFloat.ValueError => Normal (print not_a_number s)
  | PyFloat.Value short =>
      match long with
      | PyFloat.ValueError => Normal (print not_a_number s)
      | PyFloat.Value long => _flatten_img (destroy i (set_dim (Some (short, long)) s))
      end
  end.

(** [skip], the command of the 'Use Last' button of pop-up [i]. *)
Definition skip (i : nat) (s : session) : outcome :=
  _flatten_img (destroy i s).

(** *** Events *)

Inductive event :=
| Click (p : point)                          (* <Button-1> on the canvas *)
| Done (i : nat) (short long : PyFloat.parsed)
| UseLast (i : nat)
| Reload
| Save
| Next.

(** An event can only come from a widget that exists: [None] when pop-up
    [i] is not open, or has no 'Use Last' button, or the run is over. *)
Definition step (e : event) (s : session) : option outcome :=
  if finished s then None
  else
    match e with
    | Click p => Some (Normal (left_mouse_down p s))
    | Done i short long =>
        match popups s !! i with
        | Some _ => Some (done i short long s)
        | None => None
        end
    | UseLast i =>
        match popups s !! i with
        | Some d => if use_last d then Some (skip i s) else None
        | None => None
        end
    | Reload => Some (Normal (reload s))
    | Save => Some (Normal (save s))
    | Next => Some (Normal (next_file s))
    end.

(** The session after an event; an event that cannot occur changes
    nothing. *)
Definition after (e : event) (s : session) : session :=
  match step e s with
  | Some o => state_of o
  | None => s
  end.

Definition run (es : list event) (s : session) : session :=
  fold_left (fun s e => after e s) es s.

(** [__init__], the first image loaded. *)
Definition init (path : string) (rest : list string) (folder : string) : session :=
  {| img_flattened := false; num_saved := 0; dim := None; clicks := [];
     saved := ∅; curr_path := path; pending := rest; save_to := folder;
     cv_img := Source path; finished := false; written := []; popups := [];
     stdout := [] |}.

(** The states of the design, read off a session. *)
Inductive phase := CollectingCorners | AwaitingDimensions | Flattened | Finished.

Definition phase_of (s : session) : phase :=
  if finished s then Finished
  else if negb (img_flattened s) then CollectingCorners
  else if is_flat (cv_img s) then Flattened
  else AwaitingDimensions.

(** The sessions a run can be in: the first image loaded, then any events. *)
Inductive reachable : session -> Prop :=
| reachable_init path rest folder : reachable (init path rest folder)
| reachable_after e s : reachable s -> reachable (after e s).

(** What the flag, the click list and the image on the canvas have to do
    with one another while the run is on, and what an open pop-up offers. *)
Definition consistent (s : session) : Prop :=
  (finished s = false ->
     match img_flattened s with
     | false => (length (clicks s) < 4)%nat /\ is_flat (cv_img s) = false
     | true => (length (clicks s) = 4%nat /\ is_flat (cv_img s) = false)
               \/ (clicks s = [] /\ is_flat (cv_img s) = true)
     end)
  /\ Forall (fun d => use_last d = true -> is_Some (dim s)) (popups s).

(** The data model asks that dimensions, when present, have both sides
    strictly positive. *)
Definition dimensions_positive (s : session) : Prop :=
  forall short long,
    dim s = Some (short, long) ->
    PyFloat.positive short /\ PyFloat.positive long.

(** *** Sample runs *)

Definition four_corners : list event :=
  [Click (10, 10); Click (110, 10); Click (110, 60); Click (10, 60)].

(** One image, four clicks, the pop-up open and nothing entered yet. *)
Definition awaiting : session := run four_corners (init "a.jpg" [] "out").

(** What [float] returns for the entries "50", "100", "-5" and "3". *)
Definition fifty : PyFloat.float := PyFloat.Finite 50.

Definition hundred : PyFloat.float := PyFloat.Finite 100.

Definition minus_five : PyFloat.float := PyFloat.Finite (-5).

Definition three : PyFloat.float := PyFloat.Finite 3.

(** The same with 50 and 100 entered: the panel is flattened. *)
Definition flattened : session :=
  run [Done 0 (PyFloat.Value fifty) (PyFloat.Value hundred)] awaiting.

(** The same with -5 and 3 entered. *)
Definition below_zero : session :=
  run [Done 0 (PyFloat.Value minus_five) (PyFloat.Value three)] awaiting.




(** The click list stays within four entries: below four while corners
    are collected, at most four once the flag is set. *)
Definition clicks_bounded (s : session) : Prop :=
  if img_flattened s then (length (clicks s) <= 4)%nat
  else (length (clicks s) < 4)%nat.

End Flattener.


(** ** The perspective warp ([PerspectiveWarp])

    Modelled from the spec: the module [nPTransform], whose
    [four_points_correct_aspect] the session calls, is missing from the
    sources. What follows is the contract of the component design:
    coordinates and target sides are reals (rationals here), the four
    corners are taken in the order given, and the destination rectangle is
    [round(targetShort)] pixels wide and [round(targetLong)] pixels high. *)

Module PerspectiveWarp.

Definition point2d := (Q * Q)%type.

Record corner_set := Corners { c0 : point2d; c1 : point2d; c2 : point2d; c3 : point2d }.

Definition pixel := Z.

Definition black : pixel := 0.

(** A raster, as its rows from top to bottom. *)
Definition raster := list (list pixel).

Inductive error :=
| InvalidDimensionsError
| DegenerateGeometryError.

(** Twice the signed area of the triangle [a b c]. *)
Definition cross (a b c : point2d) : Q :=
  ((fst b - fst a) * (snd c - snd a) - (snd b - snd a) * (fst c - fst a))%Q.

Definition collinear (a b c : point2d) : bool := Qeq_bool (cross a b c) 0.

(** Modelled from the spec: a corner set is degenerate when three or more
    of its points are collinear. *)
Definition degenerate (cs : corner_set) : bool :=
  collinear (c0 cs) (c1 cs) (c2 cs) || collinear (c0 cs) (c1 cs) (c3 cs)
  || collinear (c0 cs) (c2 cs) (c3 cs) || collinear (c1 cs) (c2 cs) (c3 cs).

(** A 3x3 projective transform with its last entry scaled to 1. *)
Record homography := {
  h11 : Q; h12 : Q; h13 : Q;
  h21 : Q; h22 : Q; h23 : Q;
  h31 : Q; h32 : Q
}.

(** Modelled from the spec: the homography of the four correspondences
    (0,0), (1,0), (1,1), (0,1) to [c0], [c1], [c2], [c3], the solution of
    the eight linear equations in closed form. Scaled by the width and
    the height of the destination it is the inverse mapping of the warp. *)
Definition unit_square_to (cs : corner_set) : homography :=
  let '(x0, y0) := c0 cs in
  let '(x1, y1) := c1 cs in
  let '(x2, y2) := c2 cs in
  let '(x3, y3) := c3 cs in
  let sx := (x0 - x1 + x2 - x3)%Q in
  let sy := (y0 - y1 + y2 - y3)%Q in
  let dx1 := (x1 - x2)%Q in
  let dx2 := (x3 - x2)%Q in
  let dy1 := (y1 - y2)%Q in
  let dy2 := (y3 - y2)%Q in
  let den := (dx1 * dy2 - dx2 * dy1)%Q in
  let g := ((sx * dy2 - dx2 * sy) / den)%Q in
  let h := ((dx1 * sy - sx * dy1) / den)%Q in
  {| h11 := x1 - x0 + g * x1; h12 := x3 - x0 + h * x3; h13 := x0;
     h21 := y1 - y0 + g * y1; h22 := y3 - y0 + h * y3; h23 := y0;
     h31 := g; h32 := h |}%Q.

(** The image of [(u, v)]; none when it lies at infinity. *)
Definition transform (m : homography) (u v : Q) : option point2d :=
  let w := (h31 m * u + h32 m * v + 1)%Q in
  if Qeq_bool w 0 then None
  else Some ((h11 m * u + h12 m * v + h13 m) / w,
             (h21 m * u + h22 m * v + h23 m) / w)%Q.

(** The pixel at column [x] and row [y]; black outside the raster. *)
Definition pixel_at (img : raster) (x y : Z) : pixel :=
  if (x <? 0) || (y <? 0) then black
  else
    match img !! Z.to_nat y with
    | Some row => default black (row !! Z.to_nat x)
    | None => black
    end.

(** Modelled from the spec: inverse mapping with nearest-neighbour
    interpolation, for the destination pixel at column [i] and row [j] of
    a [width] by [height] grid. *)
Definition resample (img : raster) (m : homography) (width height i j : nat) : pixel :=
  let u := (inject_Z (Z.of_nat i) / inject_Z (Z.of_nat width))%Q in
  let v := (inject_Z (Z.of_nat j) / inject_Z (Z.of_nat height))%Q in
  match transform m u v with
  | Some (x, y) => pixel_at img (PyFloat.round x) (PyFloat.round y)
  | None => black
  end.

(** Modelled from the spec:
    [warp(image, corners, targetShort, targetLong)]. *)
Definition warp (img : raster) (cs : corner_set) (targetShort targetLong : Q)
  : error + raster :=
  if Qle_bool targetShort 0 || Qle_bool targetLong 0 then inl InvalidDimensionsError
  else if degenerate cs then inl DegenerateGeometryError
  else
    let width := Z.to_nat (PyFloat.round targetShort) in
    let height := Z.to_nat (PyFloat.round targetLong) in
    let m := unit_square_to cs in
    inr (map (fun j => map (fun i => resample img m width height i j) (seq 0 width))
           (seq 0 height)).

(** [m] takes [(u, v)] to the point [p]. *)
Definition sends (m : homography) (u v : Q) (p : point2d) : Prop :=
  exists x y, transform m u v = Some (x, y) /\ (x == fst p)%Q /\ (y == snd p)%Q.

(** No three of the four corners on a line. *)
Definition in_general_position (cs : corner_set) : Prop :=
  ~ (cross (c0 cs) (c1 cs) (c2 cs) == 0)%Q
  /\ ~ (cross (c0 cs) (c1 cs) (c3 cs) == 0)%Q
  /\ ~ (cross (c0 cs) (c2 cs) (c3 cs) == 0)%Q
  /\ ~ (cross (c1 cs) (c2 cs) (c3 cs) == 0)%Q.

(** [img] has [height] rows of [width] pixels each. *)
Definition has_size (width height : Z) (img : raster) : Prop :=
  Z.of_nat (length img) = height
  /\ Forall (fun row => Z.of_nat (length row) = width) img.

(** *** Sample input *)

(** A 3 by 2 raster, and the corners of the scenario. *)
Definition stripes : raster := [[1; 2; 3]; [4; 5; 6]].

Definition scenario_corners : corner_set :=
  Corners (10, 10)%Q (110, 10)%Q (110, 60)%Q (10, 60)%Q.

Definition whole_stripes : corner_set :=
  Corners (0, 0)%Q (3, 0)%Q (3, 2)%Q (0, 2)%Q.

End PerspectiveWarp.

(** ** The viewer: construction and search by name *)

Module ViewerSearch.
Import Viewer.

(** The comprehension
    [{os.path.basename(file_name): i for (i, file_name) in enumerate(file_list)}],
    entry by entry from index [i] on: a later file of the same base name
    takes the key over. *)
Fixpoint reverse_from (i : Z) (file_list : list string) (acc : gmap string Z)
  : gmap string Z :=
  match file_list with
  | [] => acc
  | file_name :: rest =>
      reverse_from (i + 1) rest (<[OsPath.basename file_name := i]> acc)
  end.

(** A [Viewer] with its look-up table [self.files_reverse]. *)
Record app := { view : viewer; files_reverse : gmap string Z }.

Inductive construction :=
| Constructed (a : app)
| AssertionError         (* [assert len(file_list) > 0] *)
| MissingFirstFile.      (* [Image.open] on the first file *)

(** [__init__(window, file_list, img_x, img_y)]. When the first file is
    not on disk the window is asked to quit, and the constructor goes on
    to open the file all the same. *)
Definition __init__ (disk : gset string) (file_list : list string) (x y : Z)
  : construction :=
  match file_list with
  | [] => AssertionError
  | filename :: _ =>
      let v := {| files := file_list; index := 0; img_x := x; img_y := y;
                  evar := OsPath.basename filename;
                  tkimage := Image filename x y |} in
      match get_image disk v filename with
      | Some im =>
          Constructed {| view := {| files := file_list; index := 0; img_x := x;
                                    img_y := y; evar := OsPath.basename filename;
                                    tkimage := im |};
                         files_reverse := reverse_from 0 file_list ∅ |}
      | None => MissingFirstFile
      end
  end.



(** 'next' pressed [n] times. *)
Fixpoint press_next (disk : gset string) (n : nat) (v : viewer) : viewer :=
  match n with
  | O => v
  | S n => press_next disk n (state_of (next_button disk v))
  end.


(** Sample: two folders holding a file of the same name. *)
Definition two_folders : list string := ["x/a.png"; "x/b.png"; "y/a.png"].

Definition two_folders_app : app :=
  {| view := {| files := two_folders; index := 0; img_x := 500; img_y := 500;
                evar := "a.png"; tkimage := Image "x/a.png" 500 500 |};
     files_reverse := reverse_from 0 two_folders ∅ |}.

End ViewerSearch.

(** ** Input parsing: what gets through *)

Module ParseInputShape.
Import ParseInput.

(** A list whose first two entries are integers, whatever follows. *)
Definition starts_with_two_ints (point : json) : bool :=
  match point with
  | JList (c0 :: c1 :: _) => isinstance_int c0 && isinstance_int c1
  | _ => false
  end.

(** The values of an object under which the loop over a key runs to its
    end: an empty list, or a list of two points that each start with two
    integers. *)
Definition passes (value : json) : bool :=
  match value with
  | JList [] => true
  | JList [p; q] => starts_with_two_ints p && starts_with_two_ints q
  | _ => false
  end.

Definition items (value : json) : list json :=
  match value with
  | JList l => l
  | _ => []
  end.

(** The entry of the result for a field of the input object. *)
Definition entry (kv : string * json) : json * list json :=
  (JStr (fst kv), items (snd kv)).

(** The entry of the result for a path of the input array. *)
Definition bare (path : string) : json * list json := (JStr path, []).

(** Sample inputs. *)
Definition mixed_object : json :=
  JDict [("a.jpg", JList [JList [JInt 1; JInt 2; JInt 3]; JList [JBool true; JInt 5]]);
         ("b.jpg", JList [])].

Definition numbers_array : json := JList [JInt 1; JNull; JStr "a.jpg"].

End ParseInputShape.

(** ** The annotation session: longer runs *)

Module FlattenerRuns.
Import Flattener.

(** A 'Done' on whose two entries [float] returns: the one event that assigns the
    stored dimensions. *)
Definition enters_dimensions (e : event) : bool :=
  match e with
  | Done _ (PyFloat.Value _) (PyFloat.Value _) => true
  | _ => false
  end.


(** Four corners, then a reload with the pop-up still open. *)
Definition reloaded_with_popup : session := run [Reload] awaiting.

End FlattenerRuns.

(** ** The earlier copy of the session ([gui.py])

    The copy differs from [imageflattener.py] in [save], which formats
    [self._num_saved] for the suffix. The class assigns no such attribute:
    its counter is [self.__num_saved], stored under the mangled name.
    Whether the look-up finds anything is up to [Image_GUI], which is not
    among the sources: [inherited] is the text the attribute formats to
    when the base class provides one, and [None] when it does not. *)

Module EarlierCopy.
Import Flattener.

Inductive exn :=
| AttributeError                   (* [self._num_saved] *)
| Callback (e : Flattener.exn).

Inductive outcome :=
| Normal (s : session)
| Raised (e : exn) (s : session).

Definition state_of (o : outcome) : session :=
  match o with Normal s | Raised _ s => s end.

Definition lift (o : Flattener.outcome) : outcome :=
  match o with
  | Flattener.Normal s => Normal s
  | Flattener.Raised e s => Raised (Callback e) s
  end.

(** What follows the call of [save_img_to_folder_with_extra]. *)
Definition record_and_reload (written_to : string * session) : session :=
  let '(path, s) := written_to in
  let s := set_saved (<[path := dim s]> (saved s)) s in
  let s := set_num_saved (num_saved s + 1) s in
  reload s.

Definition save (inherited : option string) (s : session) : outcome :=
  if img_flattened s then
    if (0 <? num_saved s)%nat then
      match inherited with
      | None => Raised AttributeError s
      | Some text =>
          Normal (record_and_reload
                    (save_img_to_folder_with_extra ("_flat_" +:+ text) s))
      end
    else Normal (record_and_reload (save_img_to_folder_with_extra "_flat" s))
  else Normal s.

(** Every other callback is the one of [imageflattener.py]. *)
Definition step (inherited : option string) (e : event) (s : session)
  : option outcome :=
  if finished s then None
  else
    match e with
    | Save => Some (save inherited s)
    | _ => lift <$> Flattener.step e s
    end.

Definition after (inherited : option string) (e : event) (s : session) : session :=
  match step inherited e s with
  | Some o => state_of o
  | None => s
  end.

(** The sessions of a run in which [Image_GUI] provides no attribute
    [_num_saved]. *)
Inductive reachable : session -> Prop :=
| reachable_init path rest folder : reachable (init path rest folder)
| reachable_after e s : reachable s -> reachable (after None e s).

(** Flattened, saved once, flattened again with the same dimensions. *)
Definition flattened_again : session :=
  after None (UseLast 0)
    (fold_left (fun s e => after None e s) four_corners (after None Save flattened)).

End EarlierCopy.

(** * Properties *)

(** ** The file viewer *)

Module ViewerProofs.
Import Viewer.

Lemma next_frame_index_mod disk v n :
  files v <> [] ->
  index (state_of (next_frame disk v n)) = n mod Z.of_nat (length (files v))
  /\ files (state_of (next_frame disk v n)) = files v.
Proof.
  intros Hne. unfold next_frame.
  destruct (Z.eqb_spec (Z.of_nat (length (files v))) 0) as [E|E].
  - destruct (files v); [congruence | simpl in E; lia].
  - cbn zeta. destruct (_ !! _) as [filename|]; [|done].
    destruct (get_image _ _ _); done.
Qed.

(** With files to show, the look-up [self.files[self.index]] is in range:
    the only exception [next_frame] can leave with is the one of
    [Image.open]. *)
Lemma next_frame_lookup disk v n e v' :
  files v <> [] -> next_frame disk v n = Raised e v' -> e = FileNotFoundError.
Proof.
  intros Hne. unfold next_frame.
  destruct (Z.eqb_spec (Z.of_nat (length (files v))) 0) as [E|E].
  - destruct (files v); [congruence | simpl in E; lia].
  - cbn zeta. destruct (_ !! _) as [filename|] eqn:Hl.
    + destruct (get_image _ _ _); congruence.
    + apply lookup_ge_None in Hl. simpl in Hl.
      pose proof (Z.mod_pos_bound n (Z.of_nat (length (files v)))). lia.
Qed.

(** C10. For every integer [n] and non-empty file list, [next_frame(n)]
    leaves the index at [n] modulo the number of files, hence in range;
    'next' on the last file goes to the first and 'back' on the first goes
    to the last. *)
Theorem next_frame_wraps disk v n :
  files v <> [] ->
  let len := Z.of_nat (length (files v)) in
  index (state_of (next_frame disk v n)) = n mod len
  /\ 0 <= index (state_of (next_frame disk v n)) < len
  /\ (index v = len - 1 -> index (state_of (next_button disk v)) = 0)
  /\ (index v = 0 -> index (state_of (back_button disk v)) = len - 1).
Proof.
  intros Hne len.
  assert (0 < len) by (subst len; destruct (files v); [congruence | simpl; lia]).
  repeat split.
  - by apply next_frame_index_mod.
  - rewrite (proj1 (next_frame_index_mod disk v n Hne)). by apply Z.mod_pos_bound.
  - rewrite (proj1 (next_frame_index_mod disk v n Hne)). by apply Z.mod_pos_bound.
  - intros Hi. unfold next_button.
    rewrite (proj1 (next_frame_index_mod disk v _ Hne)), Hi. fold len.
    replace (len - 1 + 1) with len by lia. apply Z_mod_same_full.
  - intros Hi. unfold back_button.
    rewrite (proj1 (next_frame_index_mod disk v _ Hne)), Hi. fold len.
    replace (0 - 1) with (len - 1 + (-1) * len) by lia.
    rewrite Z_mod_plus_full. apply Z.mod_small. lia.
Qed.

Lemma next_frame_wraps_witness :
  index (state_of (next_frame ∅ three_files (-1))) = 2
  /\ index (state_of (back_button {["c.png"]} three_files)) = 2.
Proof.
  destruct (next_frame_wraps ∅ three_files (-1)) as (H1 & _); [discriminate|].
  destruct (next_frame_wraps {["c.png"]} three_files 0) as (_ & _ & _ & H4);
    [discriminate|].
  split; [exact H1 | exact (H4 eq_refl)].
Defined.

End ViewerProofs.

(** ** Input parsing *)

Module ParseInputProofs.
Import ParseInput.

(** Anything but an object or an array is turned down with a format
    error. *)
Lemma toplevel_shape j :
  match j with JDict _ | JList _ => False | _ => True end ->
  _parse_input j = Raise JsonFormatError_toplevel.
Proof. by destruct j. Qed.

(** A value that is not an array is turned down with a format error. *)
Lemma value_not_list key v rest :
  isinstance_list v = false ->
  _parse_input (JDict ((key, v) :: rest)) = Raise JsonFormatError_value.
Proof.
  intros Hv. simpl. rewrite String.eqb_refl. by destruct v.
Qed.

(** An array of path strings is accepted, and every hint list of the
    result is empty. *)
Lemma list_loop_empty_hints items acc :
  forallb hashable items = true ->
  Forall (fun kv => snd kv = []) acc ->
  exists d, list_loop items acc = Return d /\ Forall (fun kv => snd kv = []) d.
Proof.
  revert acc. induction items as [|k items IH]; intros acc Hh Hacc; simpl.
  - by exists acc.
  - simpl in Hh. apply andb_prop in Hh as [Hk Hh]. rewrite Hk.
    apply IH; [done|].
    clear -Hacc. induction Hacc as [|[k0 v0] acc H0 Hacc IH]; simpl.
    + by constructor.
    + destruct (key_eqb k0 k); constructor; done.
Qed.

Lemma path_array_accepted j :
  path_array j = true ->
  exists d, _parse_input j = Return d /\ Forall (fun kv => snd kv = []) d.
Proof.
  destruct j as [| | | | |items|]; try discriminate. simpl. intros Hp.
  apply list_loop_empty_hints; [|by constructor].
  clear -Hp. induction items as [|x items IH]; [done|].
  simpl in *. apply andb_prop in Hp as [Hx Hp]. rewrite (IH Hp).
  by destruct x.
Qed.

(** C2. The test on a hint reads the length of the whole hint list where
    the length of the point is meant. An object with a single well-formed
    pair is turned down with the format error; two entries of three
    integers each pass; two entries of one integer each leave with an
    [IndexError], which is no format error. *)
Theorem parse_input_checks_the_wrong_length :
  well_formed_input one_pair = true
  /\ _parse_input one_pair = Raise JsonFormatError_point
  /\ well_formed_input two_triples = false
  /\ _parse_input two_triples
     = Return [(JStr "a.jpg", [JList [JInt 1; JInt 2; JInt 3];
                               JList [JInt 4; JInt 5; JInt 6]])]
  /\ well_formed_input two_short_points = false
  /\ _parse_input two_short_points = Raise IndexError
  /\ is_format_error IndexError = false.
Proof. repeat split. Qed.

End ParseInputProofs.

(** ** The annotation session *)

Module FlattenerProofs.
Import Flattener.

(** *** [save] *)

Lemma save_unflagged s : img_flattened s = false -> save s = s.
Proof. intros H. unfold save. by rewrite H. Qed.

Lemma save_flagged s :
  img_flattened s = true ->
  let path := output_path (save_to s) (curr_path s) (flat_suffix (num_saved s)) in
  written (save s) = (written s ++ [(path, cv_img s)])%list
  /\ saved (save s) = <[path := dim s]> (saved s)
  /\ num_saved (save s) = (num_saved s + 1)%nat
  /\ img_flattened (save s) = false
  /\ clicks (save s) = []
  /\ curr_path (save s) = curr_path s
  /\ save_to (save s) = save_to s
  /\ dim (save s) = dim s.
Proof. intros H. unfold save. rewrite H. by destruct s. Qed.

(** Whenever the flag is set and nothing is flattened yet, [save] writes
    the image as it is. *)
Lemma save_writes_unflattened_image s :
  phase_of s = AwaitingDimensions ->
  is_flat (cv_img s) = false
  /\ written (save s)
     = (written s
        ++ [(output_path (save_to s) (curr_path s) (flat_suffix (num_saved s)),
             cv_img s)])%list.
Proof.
  unfold phase_of. destruct (finished s); [done|].
  destruct (img_flattened s) eqn:E; [|done]. simpl.
  destruct (is_flat (cv_img s)); [done|]. intros _. split; [done|].
  by apply save_flagged.
Qed.

(** C5. After the fourth click the flag [_img_flattened] is already set,
    although nothing has been flattened: [save] in that state is no
    no-op. It writes the unflattened source image under the [_flat] name,
    records it with no dimensions, counts it and reloads. *)
Theorem save_while_awaiting_dimensions :
  phase_of awaiting = AwaitingDimensions
  /\ cv_img awaiting = Source "a.jpg"
  /\ save awaiting <> awaiting
  /\ written (save awaiting) = [("out/a_flat.jpg", Source "a.jpg")]
  /\ saved (save awaiting) = {[ "out/a_flat.jpg" := None ]}
  /\ num_saved (save awaiting) = 1%nat
  /\ phase_of (save awaiting) = CollectingCorners.
Proof.
  repeat split; try reflexivity.
  intros H. apply (f_equal num_saved) in H. discriminate H.
Qed.

(** *** [next_file] *)

Lemma load_next_img_or_end_private s :
  num_saved (load_next_img_or_end s) = num_saved s
  /\ dim (load_next_img_or_end s) = dim s
  /\ saved (load_next_img_or_end s) = saved s
  /\ (img_flattened s = false -> img_flattened (load_next_img_or_end s) = false).
Proof.
  unfold load_next_img_or_end. destruct s; simpl. by destruct pending0.
Qed.

Lemma dim_next_file s : dim (next_file s) = dim s.
Proof.
  unfold next_file.
  destruct (load_next_img_or_end_private (set_num_saved 0 (set_img_flattened false s)))
    as (_ & -> & _). by destruct s.
Qed.

(** C7. [next_file] puts the save counter back to zero and clears the
    flag; the stored dimensions and the manifest are as before. *)
Theorem next_file_frame s :
  num_saved (next_file s) = 0%nat
  /\ img_flattened (next_file s) = false
  /\ dim (next_file s) = dim s
  /\ saved (next_file s) = saved s.
Proof.
  unfold next_file.
  destruct (load_next_img_or_end_private (set_num_saved 0 (set_img_flattened false s)))
    as (-> & -> & -> & Hflag).
  rewrite Hflag by by destruct s. by destruct s.
Qed.

(** *** The 'Done' button *)

Lemma done_unparsable i short long s :
  short = PyFloat.ValueError \/ long = PyFloat.ValueError ->
  done i short long s = Normal (print not_a_number s).
Proof.
  intros H. unfold done. destruct short as [|x]; [done|].
  destruct H as [H|H]; [done|]. by rewrite H.
Qed.

(** C9. When [float] raises [ValueError] on the short or on the long
    entry, [done] returns normally having printed its message and nothing
    else: the stored dimensions, the pop-ups, the image and the clicks are
    as before. That covers a long entry failing after the short one
    parsed. *)
Theorem done_unparsable_entry i short long s :
  short = PyFloat.ValueError \/ long = PyFloat.ValueError ->
  done i short long s = Normal (print not_a_number s)
  /\ dim (print not_a_number s) = dim s
  /\ popups (print not_a_number s) = popups s
  /\ cv_img (print not_a_number s) = cv_img s
  /\ clicks (print not_a_number s) = clicks s
  /\ img_flattened (print not_a_number s) = img_flattened s
  /\ saved (print not_a_number s) = saved s
  /\ (forall x,
        short = PyFloat.Value x ->
        dim (state_of (done i short long s)) = dim s).
Proof.
  intros H. rewrite (done_unparsable i short long s H). by split_and!.
Qed.

Lemma done_unparsable_entry_witness :
  done 0 (PyFloat.Value fifty) PyFloat.ValueError awaiting
  = Normal (print not_a_number awaiting)
  /\ dim (state_of (done 0 (PyFloat.Value fifty) PyFloat.ValueError awaiting)) = None.
Proof.
  destruct (done_unparsable_entry 0 (PyFloat.Value fifty) PyFloat.ValueError awaiting)
    as (H1 & H2 & _).
  - right. reflexivity.
  - split; [exact H1 | rewrite H1; reflexivity].
Defined.

(** *** Clicks *)

(** Reduces the field projections of a session that is written out. *)
Ltac fields :=
  cbn [img_flattened num_saved dim clicks saved curr_path pending save_to
       cv_img finished written popups stdout
       set_img_flattened set_num_saved set_dim set_clicks set_saved
       set_curr_path set_pending set_save_to set_cv_img set_finished
       set_written set_popups set_stdout
       _request_dims ImageProcessor_reload reload print destroy] in *.


Lemma left_mouse_down_cases p s :
  (img_flattened s = true /\ left_mouse_down p s = s)
  \/ (img_flattened s = false /\ (length (clicks s) < 3)%nat
      /\ left_mouse_down p s = set_clicks (clicks s ++ [p])%list s)
  \/ (img_flattened s = false /\ (3 <= length (clicks s))%nat
      /\ left_mouse_down p s
         = _request_dims
             (set_img_flattened true (set_clicks (clicks s ++ [p])%list s))).
Proof.
  unfold left_mouse_down. destruct (img_flattened s); [by left | right].
  replace (length (clicks (set_clicks (clicks s ++ [p])%list s)))
    with (length (clicks s) + 1)%nat
    by (destruct s; fields; by rewrite length_app).
  destruct (Nat.leb_spec 4 (length (clicks s) + 1)); [right | left];
    (split; [done | split; [lia | done]]).
Qed.

Lemma left_mouse_down_bounded p s :
  clicks_bounded s -> clicks_bounded (left_mouse_down p s).
Proof.
  unfold clicks_bounded.
  destruct (left_mouse_down_cases p s) as [[E ->]|[(E & Hl & ->)|(E & Hl & ->)]];
    rewrite E; [done| |]; intros H; destruct s; fields; subst;
    rewrite length_app; simpl length; lia.
Qed.

Lemma run_clicks_bounded ps s :
  clicks_bounded s -> clicks_bounded (run (map Click ps) s).
Proof.
  revert s. induction ps as [|p ps IH]; intros s H; [done|].
  simpl. apply IH. unfold after, step.
  destruct (finished s); [done|]. by apply left_mouse_down_bounded.
Qed.

Lemma consistent_bounded s :
  consistent s -> finished s = false -> clicks_bounded s.
Proof.
  intros [H _] Hf. specialize (H Hf). unfold clicks_bounded.
  destruct (img_flattened s); [|tauto].
  destruct H as [[-> _]|[-> _]]; simpl; lia.
Qed.

Lemma consistent_init path rest folder : consistent (init path rest folder).
Proof. split; simpl; [intros _; split; [lia | done] | constructor]. Qed.

(** C4. From a session that is collecting corners, four clicks lead to
    the state that awaits dimensions, the click list holding four entries
    and one more pop-up being open, created with the click that made the
    list four long. From an empty list that is the fourth click: the
    first three leave the session collecting and open nothing. A click
    that follows changes nothing, and whatever clicks are made the list
    never holds more than four entries. *)
Theorem fourth_click_asks_for_dimensions s p1 p2 p3 p4 :
  consistent s ->
  phase_of s = CollectingCorners ->
  let s3 := run [Click p1; Click p2; Click p3] s in
  let s4 := run [Click p1; Click p2; Click p3; Click p4] s in
  phase_of s4 = AwaitingDimensions
  /\ length (clicks s4) = 4%nat
  /\ popups s4
     = (popups s ++ [{| use_last := bool_decide (is_Some (dim s)) |}])%list
  /\ (clicks s = [] ->
      clicks s4 = [p1; p2; p3; p4]
      /\ phase_of s3 = CollectingCorners
      /\ popups s3 = popups s)
  /\ (forall p, after (Click p) s4 = s4)
  /\ (forall ps, (length (clicks (run (map Click ps) s)) <= 4)%nat).
Proof.
  intros Hc Hp s3 s4.
  assert (Hf : finished s = false).
  { unfold phase_of in Hp. by destruct (finished s). }
  assert (Hg : img_flattened s = false).
  { unfold phase_of in Hp. rewrite Hf in Hp.
    destruct (img_flattened s); [|done]. by destruct (is_flat _). }
  pose proof (consistent_bounded s Hc Hf) as Hb.
  destruct Hc as [Hc _]. specialize (Hc Hf). rewrite Hg in Hc.
  destruct Hc as [Hlen Hflat].
  assert (Hall : forall ps, (length (clicks (run (map Click ps) s)) <= 4)%nat).
  { intros ps. pose proof (run_clicks_bounded ps s Hb) as H.
    unfold clicks_bounded in H. destruct (img_flattened (run _ _)); lia. }
  clear Hb Hp. subst s3 s4.
  destruct s as [? ? ? cl ? ? ? ? ? ? ? ? ?]; simpl in Hf, Hg, Hlen, Hflat.
  subst. unfold phase_of.
  destruct cl as [|a [|b [|c [|d cl]]]]; simpl in Hlen; try lia;
    simpl; rewrite Hflat; split_and!; done.
Qed.

Lemma fourth_click_asks_for_dimensions_witness :
  phase_of awaiting = AwaitingDimensions
  /\ clicks awaiting = [(10, 10); (110, 10); (110, 60); (10, 60)]
  /\ popups awaiting = [{| use_last := false |}].
Proof.
  destruct (fourth_click_asks_for_dimensions (init "a.jpg" [] "out")
              (10, 10) (110, 10) (110, 60) (10, 60))
    as (H1 & _ & H3 & H4 & _).
  - apply consistent_init.
  - reflexivity.
  - destruct (H4 eq_refl) as (H5 & _). split; [exact H1 | split; [exact H5 | exact H3]].
Defined.


(** *** The invariant of a run *)

Lemma consistent_flatten s :
  consistent s -> is_Some (dim s) -> consistent (state_of (_flatten_img s)).
Proof.
  intros [H1 H2] [[short long] Hd]. unfold _flatten_img.
  destruct (Nat.eqb_spec (length (clicks s)) 4) as [E|E]; [|done].
  rewrite Hd. destruct s; fields. simpl state_of. split; fields; [|done].
  intros Hf. specialize (H1 Hf).
  destruct img_flattened0; [by right | lia].
Qed.

Lemma consistent_left_mouse_down p s :
  consistent s -> consistent (left_mouse_down p s).
Proof.
  intros [H1 H2].
  destruct (left_mouse_down_cases p s) as [[E ->]|[(E & Hl & ->)|(E & Hl & ->)]];
    [done| |]; destruct s; fields; subst; (split; fields).
  - intros Hf. destruct (H1 Hf) as [_ ?]. rewrite length_app. simpl. split; [lia|done].
  - done.
  - intros Hf. destruct (H1 Hf) as [? ?]. rewrite length_app. simpl. left. split; [lia|done].
  - apply Forall_app. split; [done|]. constructor; [|done].
    simpl. intros H. by apply bool_decide_eq_true in H.
Qed.

Lemma consistent_reload s : consistent s -> consistent (reload s).
Proof.
  intros [H1 H2]. destruct s; fields. split; fields; [|done].
  intros _. simpl. split; [lia|done].
Qed.

Lemma consistent_save s : consistent s -> consistent (save s).
Proof.
  intros H. unfold save. destruct (img_flattened s); [|done].
  unfold save_img_to_folder_with_extra. apply consistent_reload.
  destruct H as [H1 H2]. destruct s; fields. by split.
Qed.

Lemma consistent_next_file s : consistent s -> consistent (next_file s).
Proof.
  intros [H1 H2]. unfold next_file, load_next_img_or_end.
  destruct s; fields. destruct pending0 as [|p rest]; fields.
  - by split.
  - split; fields; [|done]. intros _. simpl. split; [lia|done].
Qed.

Lemma consistent_done i short long s :
  consistent s -> consistent (state_of (done i short long s)).
Proof.
  intros [H1 H2]. unfold done.
  destruct short as [|short]; [by destruct s|].
  destruct long as [|long]; [by destruct s|].
  apply consistent_flatten; [|by destruct s].
  destruct s; fields. split; fields; [done|].
  apply Forall_forall. intros d _ _. by eexists.
Qed.

Lemma consistent_skip i d s :
  consistent s -> popups s !! i = Some d -> use_last d = true ->
  consistent (state_of (skip i s)).
Proof.
  intros [H1 H2] Hi Hd. unfold skip.
  assert (is_Some (dim s)) as Hdim.
  { eapply Forall_lookup_1 in H2; [|exact Hi]. by apply H2. }
  apply consistent_flatten; [|by destruct s].
  destruct s; fields. split; fields; [done|].
  by apply Forall_delete.
Qed.

Lemma consistent_after e s : consistent s -> consistent (after e s).
Proof.
  intros H. unfold after, step. destruct (finished s); [done|].
  destruct e as [p|i a b|i| | |]; simpl.
  - by apply consistent_left_mouse_down.
  - destruct (popups s !! i); [|done]. by apply consistent_done.
  - destruct (popups s !! i) as [d|] eqn:Hi; [|done].
    destruct (use_last d) eqn:Hd; [|done]. by eapply consistent_skip.
  - by apply consistent_reload.
  - by apply consistent_save.
  - by apply consistent_next_file.
Qed.

Lemma reachable_consistent s : reachable s -> consistent s.
Proof.
  induction 1 as [path rest folder|e s _ IH].
  - apply consistent_init.
  - by apply consistent_after.
Qed.


Lemma reachable_run es s : reachable s -> reachable (run es s).
Proof.
  revert s. induction es as [|e es IH]; intros s H; [done|].
  simpl. apply IH. by constructor.
Qed.

Lemma reachable_awaiting : reachable awaiting.
Proof. apply reachable_run. constructor. Qed.

(** *** Stored dimensions *)

Lemma dim_flatten s : dim (state_of (_flatten_img s)) = dim s.
Proof.
  unfold _flatten_img. destruct (_ =? _)%nat; [|done].
  destruct (dim s) as [[short long]|] eqn:E; [|done]. by destruct s.
Qed.

Lemma dim_left_mouse_down p s : dim (left_mouse_down p s) = dim s.
Proof.
  destruct (left_mouse_down_cases p s) as [[E ->]|[(E & Hl & ->)|(E & Hl & ->)]];
    by destruct s.
Qed.

Lemma dim_reload s : dim (reload s) = dim s.
Proof. by destruct s. Qed.

Lemma dim_save s : dim (save s) = dim s.
Proof.
  destruct (img_flattened s) eqn:E.
  - by apply save_flagged.
  - by rewrite save_unflagged.
Qed.

(** Only a 'Done' whose two entries parse changes the stored dimensions,
    and it stores what they parse to. *)
Lemma dim_after e s :
  dim (after e s) = dim s
  \/ exists i short long,
       e = Done i (PyFloat.Value short) (PyFloat.Value long)
       /\ dim (after e s) = Some (short, long).
Proof.
  unfold after, step. destruct (finished s); [by left|].
  destruct e as [p|i a b|i| | |]; simpl.
  - left. apply dim_left_mouse_down.
  - destruct (popups s !! i); [|by left]. unfold done.
    destruct a as [|short]; [left; by destruct s|].
    destruct b as [|long]; [left; by destruct s|].
    right. exists i, short, long. split; [done|].
    rewrite dim_flatten. by destruct s.
  - left. destruct (popups s !! i) as [d|]; [|done].
    destruct (use_last d); [|done]. unfold skip. rewrite dim_flatten. by destruct s.
  - left. apply dim_reload.
  - left. apply dim_save.
  - left. apply dim_next_file.
Qed.

(** Dimensions, once stored, stay stored. *)
Lemma dim_stays e s : is_Some (dim s) -> is_Some (dim (after e s)).
Proof.
  intros H. destruct (dim_after e s) as [->|(?&?&?&_&->)]; [done|by eexists].
Qed.

(** Over a run, the stored dimensions are those at its start or the pair
    of a 'Done' of the run whose two entries parsed. *)
Lemma dim_run es s :
  dim (run es s) = dim s
  \/ exists i short long,
       Done i (PyFloat.Value short) (PyFloat.Value long) ∈ es
       /\ dim (run es s) = Some (short, long).
Proof.
  revert s. induction es as [|e es IH]; intros s; [by left|]. simpl.
  destruct (IH (after e s)) as [E|(i & short & long & Hin & E)].
  - rewrite E. destruct (dim_after e s) as [->|(i & short & long & -> & E')];
      [by left|].
    right. exists i, short, long. split; [by left | done].
  - right. exists i, short, long. split; [by right | done].
Qed.

(** C3, as the code has it. The dimensions a session holds are the two
    floats that [float] returned for the entries of a 'Done' pressed in
    the run, whatever their sign: nothing tests that they are positive.
    An entry on which [float] raises [ValueError] is dealt with inside
    [done]: the message is printed, the callback returns normally, the
    pop-up stays open for another entry and the stored dimensions are not
    touched. *)
Theorem stored_dimensions_are_parsed_entries es path rest folder :
  let s := run es (init path rest folder) in
  (forall short long,
      dim s = Some (short, long) ->
      exists i, Done i (PyFloat.Value short) (PyFloat.Value long) ∈ es)
  /\ (forall i short long o,
        step (Done i short long) s = Some o ->
        short = PyFloat.ValueError \/ long = PyFloat.ValueError ->
        o = Normal (print not_a_number s)
        /\ dim (state_of o) = dim s
        /\ popups (state_of o) = popups s).
Proof.
  intros s. split.
  - intros short long Hd. subst s.
    destruct (dim_run es (init path rest folder)) as [E|(i & x & y & Hin & E)].
    + rewrite E in Hd. discriminate Hd.
    + rewrite E in Hd. injection Hd as <- <-. by exists i.
  - intros i a b o Hs Hfail. unfold step in Hs.
    destruct (finished s); [done|]. destruct (popups s !! i); [|done].
    injection Hs as <-.
    by rewrite (done_unparsable i a b s Hfail).
Qed.

Lemma stored_dimensions_are_parsed_entries_witness :
  (exists i,
      Done i (PyFloat.Value fifty) (PyFloat.Value hundred)
      ∈ (four_corners ++ [Done 0 (PyFloat.Value fifty) (PyFloat.Value hundred)])%list)
  /\ dim (after (Done 0 PyFloat.ValueError (PyFloat.Value hundred)) awaiting) = None.
Proof.
  split.
  - destruct (stored_dimensions_are_parsed_entries
                (four_corners ++ [Done 0%nat (PyFloat.Value fifty) (PyFloat.Value hundred)])
                "a.jpg" [] "out") as [H _].
    apply (H fifty hundred). reflexivity.
  - destruct (stored_dimensions_are_parsed_entries four_corners "a.jpg" [] "out")
      as [_ H].
    destruct (H 0%nat PyFloat.ValueError (PyFloat.Value hundred)
                (done 0 PyFloat.ValueError (PyFloat.Value hundred) awaiting) eq_refl)
      as (_ & H2 & _).
    + left. reflexivity.
    + exact H2.
Defined.

(** C3, as stated, fails: [float] takes the entry "-5" to -5.0, and the
    session then holds a short side that is not positive. *)
Lemma negative_dimensions_are_stored :
  reachable below_zero
  /\ dim below_zero = Some (PyFloat.Finite (-5 # 1), PyFloat.Finite (3 # 1))
  /\ ~ dimensions_positive below_zero.
Proof.
  split; [apply reachable_run, reachable_awaiting|]. split; [reflexivity|].
  intros H. destruct (H _ _ eq_refl) as [H1 _]. discriminate H1.
Qed.

(** *** The 'Use Last' button *)





(** *** Output paths *)





(** *** Saving more than once *)










End FlattenerProofs.

(** ** The perspective warp *)

Module PerspectiveWarpProofs.
Import PerspectiveWarp.

Lemma round_nonneg q : (0 < q)%Q -> 0 <= PyFloat.round q.
Proof.
  intros Hq. assert (0 <= Qfloor q) as Hf.
  { change 0 with (Qfloor 0). apply Qfloor_resp_le. by apply Qlt_le_weak. }
  unfold PyFloat.round.
  destruct (_ ?= _)%Q; [destruct (Z.even _)| |]; lia.
Qed.

Lemma general_position_not_degenerate cs :
  in_general_position cs -> degenerate cs = false.
Proof.
  intros (H1 & H2 & H3 & H4). unfold degenerate, collinear.
  rewrite !orb_false_iff.
  split_and!; apply not_true_is_false; intros E; by apply Qeq_bool_eq in E.
Qed.

Lemma nonzero_factor (w den c : Q) :
  (w * den == - c)%Q -> ~ (c == 0)%Q -> ~ (w == 0)%Q.
Proof.
  intros H Hc E. apply Hc. rewrite E in H.
  rewrite <- (Qopp_involutive c), <- H. ring.
Qed.

Lemma transform_sends m u v p :
  let w := (h31 m * u + h32 m * v + 1)%Q in
  ~ (w == 0)%Q ->
  (h11 m * u + h12 m * v + h13 m == fst p * w)%Q ->
  (h21 m * u + h22 m * v + h23 m == snd p * w)%Q ->
  sends m u v p.
Proof.
  intros w Hw Hx Hy. unfold sends, transform. fold w.
  destruct (Qeq_bool w 0) eqn:E; [by apply Qeq_bool_eq in E|].
  eexists _, _. split; [reflexivity|]. split.
  - rewrite Hx. by field.
  - rewrite Hy. by field.
Qed.

(** The closed form is the homography asked for: it takes the corners of
    the unit square, in order, to the four corners given. *)
Lemma unit_square_to_corners (cs : corner_set) :
  in_general_position cs ->
  sends (unit_square_to cs) 0 0 (c0 cs)
  /\ sends (unit_square_to cs) 1 0 (c1 cs)
  /\ sends (unit_square_to cs) 1 1 (c2 cs)
  /\ sends (unit_square_to cs) 0 1 (c3 cs).
Proof.
  destruct cs as [[x0 y0] [x1 y1] [x2 y2] [x3 y3]].
  unfold in_general_position, cross. simpl.
  intros (H1 & H2 & H3 & H4).
  set (den := ((x1 - x2) * (y3 - y2) - (x3 - x2) * (y1 - y2))%Q).
  assert (Hden : ~ (den == 0)%Q).
  { apply (nonzero_factor den 1 ((x2 - x1) * (y3 - y1) - (y2 - y1) * (x3 - x1)));
      [unfold den; ring | done]. }
  split_and!; apply transform_sends; unfold unit_square_to; simpl; fold den.
  all: try (unfold den; field; exact Hden).
  - apply (nonzero_factor _ 1 (- 1)); [unfold den; field; exact Hden | done].
  - eapply (nonzero_factor _ den); [|exact H3]. unfold den; field; exact Hden.
  - eapply (nonzero_factor _ den); [|exact H2]. unfold den; field; exact Hden.
  - eapply (nonzero_factor _ den); [|exact H1]. unfold den; field; exact Hden.
Qed.

Lemma grid_has_size {A} (f : nat -> nat -> A) (width height : nat) :
  length (map (fun j => map (fun i => f i j) (seq 0 width)) (seq 0 height)) = height
  /\ Forall (fun row => length row = width)
       (map (fun j => map (fun i => f i j) (seq 0 width)) (seq 0 height)).
Proof.
  split.
  - by rewrite length_map, length_seq.
  - apply Forall_map, Forall_forall. intros j _. simpl.
    by rewrite length_map, length_seq.
Qed.

(** C8. For four corners no three of which lie on a line, and positive
    target sides [w] and [h], [warp] returns a raster, and that raster has
    exactly [round(h)] rows of [round(w)] pixels. *)
Theorem warp_has_exact_size img cs w h :
  in_general_position cs ->
  (0 < w)%Q ->
  (0 < h)%Q ->
  exists out,
    warp img cs w h = inr out
    /\ has_size (PyFloat.round w) (PyFloat.round h) out.
Proof.
  intros Hg Hw Hh. unfold warp.
  assert (Qle_bool w 0 = false) as ->.
  { apply not_true_is_false. intros H. apply Qle_bool_iff in H.
    by apply Qlt_not_le in Hw. }
  assert (Qle_bool h 0 = false) as ->.
  { apply not_true_is_false. intros H. apply Qle_bool_iff in H.
    by apply Qlt_not_le in Hh. }
  rewrite (general_position_not_degenerate cs Hg). simpl orb. cbv iota.
  eexists. split; [reflexivity|].
  destruct (grid_has_size
              (resample img (unit_square_to cs) (Z.to_nat (PyFloat.round w))
                 (Z.to_nat (PyFloat.round h)))
              (Z.to_nat (PyFloat.round w)) (Z.to_nat (PyFloat.round h)))
    as [Hrows Hcols].
  split.
  - rewrite Hrows. apply Z2Nat.id. by apply round_nonneg.
  - eapply Forall_impl; [exact Hcols|]. intros row ->. simpl.
    apply Z2Nat.id. by apply round_nonneg.
Qed.

Lemma warp_has_exact_size_witness :
  exists out,
    warp stripes scenario_corners 50 100 = inr out
    /\ has_size 50 100 out.
Proof.
  apply (warp_has_exact_size stripes scenario_corners 50 100).
  - repeat split; discriminate.
  - reflexivity.
  - reflexivity.
Defined.

End PerspectiveWarpProofs.

(** ** The viewer: display, navigation and search *)

Module ViewerSearchProofs.
Import Viewer ViewerSearch.

Lemma files_positive v : files v <> [] -> 0 < Z.of_nat (length (files v)).
Proof. destruct (files v); [congruence | simpl; lia]. Qed.

Lemma next_button_files disk v :
  files v <> [] -> files (state_of (next_button disk v)) = files v.
Proof. intros H. by apply ViewerProofs.next_frame_index_mod. Qed.

(** X1. [next_frame(n)] on a non-empty list looks up the file at
    [n mod len]. When that file is on disk the call returns with the
    search bar holding its base name and the label its picture; when it
    is not, the call leaves with the error of [Image.open], the index
    already moved and the search bar and the picture still the old
    ones. *)
Theorem next_frame_display disk v n :
  files v <> [] ->
  let i := n mod Z.of_nat (length (files v)) in
  exists f,
    files v !! Z.to_nat i = Some f
    /\ (f ∈ disk ->
        next_frame disk v n
        = Returned {| files := files v; index := i; img_x := img_x v;
                      img_y := img_y v; evar := OsPath.basename f;
                      tkimage := Image f (img_x v) (img_y v) |})
    /\ (f ∉ disk ->
        next_frame disk v n
        = Raised FileNotFoundError
            {| files := files v; index := i; img_x := img_x v;
               img_y := img_y v; evar := evar v; tkimage := tkimage v |}).
Proof.
  intros Hne i. pose proof (files_positive v Hne) as Hlen.
  pose proof (Z.mod_pos_bound n _ Hlen) as Hi. fold i in Hi.
  destruct (lookup_lt_is_Some_2 (files v) (Z.to_nat i)) as [f Hf]; [lia|].
  exists f. split; [done|]. unfold next_frame.
  destruct (Z.eqb_spec (Z.of_nat (length (files v))) 0) as [E|_]; [lia|].
  cbn zeta. fold i. simpl files. simpl index. rewrite Hf.
  unfold get_image, show, set_index. simpl.
  split; intros Hd; by rewrite ?decide_True, ?decide_False by done.
Qed.

Lemma next_frame_display_witness :
  next_frame {["b.png"]} three_files 4
  = Returned {| files := ["a.png"; "b.png"; "c.png"]; index := 1; img_x := 500;
                img_y := 500; evar := "b.png"; tkimage := Image "b.png" 500 500 |}.
Proof.
  destruct (next_frame_display {["b.png"]} three_files 4) as (f & Hf & H & _);
    [discriminate|].
  injection Hf as <-. apply H. by apply elem_of_singleton.
Defined.

(** X2. With the index in range, 'back' after 'next' and 'next' after
    'back' both bring the index back to where it was, whether or not the
    files could be opened. *)
Theorem next_and_back_cancel disk v :
  0 <= index v < Z.of_nat (length (files v)) ->
  index (state_of (back_button disk (state_of (next_button disk v)))) = index v
  /\ index (state_of (next_button disk (state_of (back_button disk v)))) = index v.
Proof.
  intros Hi. assert (files v <> []) as Hne.
  { intros E. rewrite E in Hi. simpl in Hi. lia. }
  set (len := Z.of_nat (length (files v))) in *.
  unfold back_button, next_button.
  destruct (ViewerProofs.next_frame_index_mod disk v (index v + 1) Hne) as [H1 F1].
  destruct (ViewerProofs.next_frame_index_mod disk v (index v - 1) Hne) as [H2 F2].
  fold len in H1, H2.
  split.
  - destruct (ViewerProofs.next_frame_index_mod disk
                (state_of (next_frame disk v (index v + 1)))
                (index (state_of (next_frame disk v (index v + 1))) - 1)) as [H _].
    { by rewrite F1. }
    rewrite H, F1, H1. fold len.
    rewrite Zminus_mod_idemp_l. replace (index v + 1 - 1) with (index v) by lia.
    by apply Z.mod_small.
  - destruct (ViewerProofs.next_frame_index_mod disk
                (state_of (next_frame disk v (index v - 1)))
                (index (state_of (next_frame disk v (index v - 1))) + 1)) as [H _].
    { by rewrite F2. }
    rewrite H, F2, H2. fold len.
    rewrite Zplus_mod_idemp_l. replace (index v - 1 + 1) with (index v) by lia.
    by apply Z.mod_small.
Qed.

Lemma next_and_back_cancel_witness :
  index (state_of (back_button ∅ (state_of (next_button ∅ three_files)))) = 0.
Proof.
  destruct (next_and_back_cancel ∅ three_files) as [H _]; [simpl; lia|].
  exact H.
Defined.

Lemma press_next_files disk k v :
  files v <> [] -> files (press_next disk k v) = files v.
Proof.
  revert v. induction k as [|k IH]; intros v Hne; [done|]. simpl.
  rewrite IH by by rewrite next_button_files.
  by apply next_button_files.
Qed.

Lemma press_next_index disk k v :
  files v <> [] ->
  index (press_next disk (S k) v)
  = (index v + Z.of_nat (S k)) mod Z.of_nat (length (files v)).
Proof.
  revert v. induction k as [|k IH]; intros v Hne.
  - simpl. unfold next_button. by apply ViewerProofs.next_frame_index_mod.
  - change (press_next disk (S (S k)) v)
      with (press_next disk (S k) (state_of (next_button disk v))).
    rewrite IH by by rewrite next_button_files.
    rewrite next_button_files by done. unfold next_button.
    rewrite (proj1 (ViewerProofs.next_frame_index_mod disk v _ Hne)).
    rewrite Zplus_mod_idemp_l. f_equal. lia.
Qed.

(** X3. Pressing 'next' [k] times moves the index [k] places round the
    list; as many presses as there are files bring it back to where it
    started. *)
Theorem next_goes_round disk v k :
  0 <= index v < Z.of_nat (length (files v)) ->
  index (press_next disk k v) = (index v + Z.of_nat k) mod Z.of_nat (length (files v))
  /\ index (press_next disk (length (files v)) v) = index v.
Proof.
  intros Hi. assert (files v <> []) as Hne.
  { intros E. rewrite E in Hi. simpl in Hi. lia. }
  split.
  - destruct k as [|k]; [|by apply press_next_index].
    simpl. rewrite Z.add_0_r. symmetry. by apply Z.mod_small.
  - destruct (length (files v)) as [|m] eqn:E; [done|].
    rewrite press_next_index, E by done.
    rewrite <- (Z.mul_1_l (Z.of_nat (S m))) at 1.
    rewrite Z_mod_plus_full. apply Z.mod_small. lia.
Qed.

Lemma next_goes_round_witness :
  index (press_next ∅ 3 three_files) = 0
  /\ index (press_next ∅ 5 three_files) = 2.
Proof.
  destruct (next_goes_round ∅ three_files 5) as [H1 H2]; [simpl; lia|].
  split; [exact H2 | exact H1].
Defined.




Lemma reverse_from_keeps name file_list :
  forall i acc,
    is_Some (acc !! name) -> is_Some (reverse_from i file_list acc !! name).
Proof.
  induction file_list as [|f rest IH]; intros i acc Hk; [done|].
  simpl. apply IH.
  destruct (decide (OsPath.basename f = name)) as [->|Hne].
  - rewrite lookup_insert_eq. by eexists.
  - by rewrite lookup_insert_ne.
Qed.

Lemma reverse_from_sound name file_list :
  forall i acc k,
    reverse_from i file_list acc !! name = Some k ->
    acc !! name = Some k
    \/ exists j f, file_list !! j = Some f /\ OsPath.basename f = name
                   /\ k = i + Z.of_nat j.
Proof.
  induction file_list as [|f rest IH]; intros i acc k Hk; [by left|].
  simpl in Hk. apply IH in Hk as [Hk|(j & g & Hg & Hname & ->)].
  - destruct (decide (OsPath.basename f = name)) as [E|Hne].
    + rewrite E, lookup_insert_eq in Hk. injection Hk as <-.
      right. exists 0%nat, f. split_and!; [done | done | lia].
    + rewrite lookup_insert_ne in Hk by done. by left.
  - right. exists (S j), g. split_and!; [done | done | lia].
Qed.

Lemma reverse_from_has_all f file_list :
  forall i acc,
    f ∈ file_list -> is_Some (reverse_from i file_list acc !! OsPath.basename f).
Proof.
  induction file_list as [|g l IH]; intros i acc Hf; [by apply elem_of_nil in Hf|].
  cbn [reverse_from]. apply elem_of_cons in Hf as [->|Hf]; [|by apply IH].
  apply reverse_from_keeps. rewrite lookup_insert_eq. by eexists.
Qed.

Lemma constructed_fields disk file_list x y a :
  __init__ disk file_list x y = Constructed a ->
  files (view a) = file_list /\ files_reverse a = reverse_from 0 file_list ∅.
Proof.
  unfold __init__. destruct file_list as [|f0 rest]; [done|].
  destruct (get_image _ _ _) as [im|]; [|done]. by intros [= <-].
Qed.

(** X16. The look-up table the constructor builds and the file list agree:
    the base name of every file is a key, and every key leads to a
    position of the list whose file has that base name. *)
Theorem files_reverse_agrees_with_files disk file_list x y a :
  __init__ disk file_list x y = Constructed a ->
  files (view a) = file_list
  /\ (forall f, f ∈ file_list -> is_Some (files_reverse a !! OsPath.basename f))
  /\ (forall name i,
        files_reverse a !! name = Some i ->
        0 <= i < Z.of_nat (length file_list)
        /\ exists f, file_list !! Z.to_nat i = Some f /\ OsPath.basename f = name).
Proof.
  intros Ha. destruct (constructed_fields _ _ _ _ _ Ha) as [Hfiles ->].
  split_and!; [done | |].
  - intros f Hf. by apply reverse_from_has_all.
  - intros name i Hi.
    apply reverse_from_sound in Hi as [Hi|(j & f & Hf & Hname & ->)];
      [by rewrite lookup_empty in Hi|].
    pose proof (lookup_lt_Some _ _ _ Hf) as Hlt. split; [lia|].
    exists f. split; [|done]. by rewrite Z.add_0_l, Nat2Z.id.
Qed.

Lemma files_reverse_agrees_with_files_witness :
  is_Some (files_reverse two_folders_app !! "b.png").
Proof.
  destruct (files_reverse_agrees_with_files {["x/a.png"]} two_folders 500 500
              two_folders_app) as (_ & H & _).
  - unfold __init__, get_image. simpl. rewrite decide_True; [done|].
    by apply elem_of_singleton.
  - apply (H "x/b.png"). right. by left.
Defined.

End ViewerSearchProofs.

(** ** Input parsing: what gets through *)

Module ParseInputShapeProofs.
Import ParseInput ParseInputShape.

Lemma setitem_Forall (P : list json -> Prop) d k v :
  Forall (fun kv => P (snd kv)) d -> P v ->
  Forall (fun kv => P (snd kv)) (setitem d k v).
Proof.
  intros Hd Hv. induction Hd as [|[k0 v0] d H0 Hd IH]; simpl.
  - by constructor.
  - destruct (key_eqb k0 k); by constructor.
Qed.

Lemma point_ok_true value point :
  point_ok value point = Return true -> length value = 2%nat.
Proof.
  unfold point_ok. destruct point; try done.
  destruct (Nat.eqb_spec (length value) 2); done.
Qed.

Lemma points_loop_Forall (P : list json -> Prop) key value todo panels_in d :
  (length value = 2%nat -> P value) ->
  Forall (fun kv => P (snd kv)) panels_in ->
  points_loop key value todo panels_in = Return d ->
  Forall (fun kv => P (snd kv)) d.
Proof.
  intros Hv. revert panels_in. induction todo as [|p todo IH]; intros acc Hacc; simpl.
  - by intros [= <-].
  - destruct (point_ok value p) as [[|]|] eqn:E; [|done|done].
    apply IH, setitem_Forall; [done|]. by apply Hv, (point_ok_true value p).
Qed.

Lemma dict_loop_Forall (P : list json -> Prop) fields keys panels_in d :
  P [] -> (forall value, length value = 2%nat -> P value) ->
  Forall (fun kv => P (snd kv)) panels_in ->
  dict_loop fields keys panels_in = Return d ->
  Forall (fun kv => P (snd kv)) d.
Proof.
  intros H0 H2. revert panels_in. induction keys as [|key keys IH]; intros acc Hacc; simpl.
  - by intros [= <-].
  - destruct (getitem fields key) as [[| | | | |value|]|]; try done.
    destruct (points_loop _ _ _ _) as [acc'|] eqn:E; [|done].
    apply IH. eapply points_loop_Forall; [|by apply setitem_Forall|exact E].
    apply H2.
Qed.

Lemma list_loop_Forall (P : list json -> Prop) keys panels_in d :
  P [] ->
  Forall (fun kv => P (snd kv)) panels_in ->
  list_loop keys panels_in = Return d ->
  Forall (fun kv => P (snd kv)) d.
Proof.
  intros H0. revert panels_in. induction keys as [|key keys IH]; intros acc Hacc; simpl.
  - by intros [= <-].
  - destruct (hashable key); [|done]. by apply IH, setitem_Forall.
Qed.

(** X5. Whatever the input, every hint list of a dictionary that
    [_parse_input] returns is empty or has exactly two entries. *)
Theorem hint_lists_are_empty_or_pairs j d :
  _parse_input j = Return d ->
  Forall (fun kv => length (snd kv) = 0%nat \/ length (snd kv) = 2%nat) d.
Proof.
  destruct j; try done; simpl.
  - apply (list_loop_Forall (fun v => length v = 0%nat \/ length v = 2%nat));
      [by left | constructor].
  - apply (dict_loop_Forall (fun v => length v = 0%nat \/ length v = 2%nat));
      [by left | by right | constructor].
Qed.

Lemma hint_lists_are_empty_or_pairs_witness :
  Forall (fun kv => length (snd kv) = 0%nat \/ length (snd kv) = 2%nat)
    [(JStr "a.jpg", [JList [JInt 1; JInt 2; JInt 3]; JList [JBool true; JInt 5]]);
     (JStr "b.jpg", [])].
Proof.
  apply (hint_lists_are_empty_or_pairs mixed_object). reflexivity.
Defined.

Lemma setitem_fresh done_ k v :
  k ∉ map fst done_ ->
  setitem (map entry done_) (JStr k) v = (map entry done_ ++ [(JStr k, v)])%list.
Proof.
  induction done_ as [|[k0 v0] done_ IH]; intros Hk; [done|].
  simpl in *. apply not_elem_of_cons in Hk as [Hne Hk].
  destruct (String.eqb_spec k0 k) as [E|_]; [congruence|]. by rewrite IH.
Qed.

Lemma setitem_last done_ k v0 v :
  k ∉ map fst done_ ->
  setitem (map entry done_ ++ [(JStr k, v0)])%list (JStr k) v
  = (map entry done_ ++ [(JStr k, v)])%list.
Proof.
  induction done_ as [|[k1 v1] done_ IH]; intros Hk; simpl in *.
  - by rewrite String.eqb_refl.
  - apply not_elem_of_cons in Hk as [Hne Hk].
    destruct (String.eqb_spec k1 k) as [E|_]; [congruence|]. by rewrite IH.
Qed.

Lemma points_loop_passes key value panels_in :
  if passes (JList value) then
    points_loop key value value panels_in
    = Return (match value with
              | [] => panels_in
              | _ => setitem (setitem panels_in (JStr key) value) (JStr key) value
              end)
  else exists e, points_loop key value value panels_in = Raise e.
Proof.
  destruct value as [|p [|q [|r rest]]]; [done| | |].
  - simpl. destruct p; simpl; eauto.
  - unfold passes, starts_with_two_ints.
    destruct p as [| | | | |[|a0 [|a1 ar]]|]; simpl; eauto;
      destruct (isinstance_int a0); simpl; eauto;
      destruct (isinstance_int a1); simpl; eauto;
      destruct q as [| | | | |[|b0 [|b1 br]]|]; simpl; eauto;
      destruct (isinstance_int b0); simpl; eauto;
      destruct (isinstance_int b1); simpl; eauto.
  - simpl. destruct p; simpl; eauto.
Qed.

Lemma getitem_NoDup fields k v :
  NoDup (map fst fields) -> (k, v) ∈ fields -> getitem fields k = Some v.
Proof.
  induction fields as [|[k0 v0] fields IH]; intros Hn Hin.
  - by apply elem_of_nil in Hin.
  - simpl in *. apply NoDup_cons in Hn as [Hk0 Hn].
    apply elem_of_cons in Hin as [[= -> ->]|Hin].
    + by rewrite String.eqb_refl.
    + destruct (String.eqb_spec k0 k) as [->|_]; [|by apply IH].
      exfalso. apply Hk0. apply list_elem_of_fmap. by exists (k, v).
Qed.

Lemma dict_loop_passes fields todo :
  forall done_,
    NoDup (map fst (done_ ++ todo)) ->
    (forall kv, kv ∈ todo -> getitem fields (fst kv) = Some (snd kv)) ->
    if forallb (fun kv => passes (snd kv)) todo then
      dict_loop fields (map fst todo) (map entry done_)
      = Return (map entry (done_ ++ todo))
    else exists e, dict_loop fields (map fst todo) (map entry done_) = Raise e.
Proof.
  induction todo as [|[k v] todo IH]; intros done_ Hn Hget.
  - simpl. by rewrite app_nil_r.
  - assert (getitem fields k = Some v) as Hg by (apply (Hget (k, v)); by left).
    assert (k ∉ map fst done_) as Hk.
    { rewrite map_app in Hn. apply NoDup_app in Hn as (_ & Hd & _).
      intros Hin. apply (Hd k Hin). by left. }
    cbn [map fst snd forallb dict_loop]. rewrite Hg.
    destruct v as [| | | | |value|]; try (cbn; eauto; fail).
    pose proof (points_loop_passes k value (setitem (map entry done_) (JStr k) [])) as Hp.
    destruct (passes (JList value)); cbn [andb].
    + rewrite Hp.
      assert (match value with
              | [] => setitem (map entry done_) (JStr k) []
              | _ :: _ =>
                  setitem (setitem (setitem (map entry done_) (JStr k) []) (JStr k) value)
                    (JStr k) value
              end = map entry (done_ ++ [(k, JList value)])) as ->.
      { rewrite map_app. cbn [map entry fst snd items].
        destruct value; rewrite setitem_fresh by done; [done|].
        by rewrite !setitem_last. }
      specialize (IH (done_ ++ [(k, JList value)])%list).
      rewrite <- !app_assoc in IH. cbn [app] in IH.
      apply IH; [done|]. intros kv Hkv. apply Hget. by right.
    + destruct Hp as [e ->]. eauto.
Qed.

(** X6. For an object with each key once, [_parse_input] returns exactly
    when every value is an empty list or a list of two points that each
    start with two integers; it then returns the keys in their order,
    each with its list as it came. In every other case it raises. *)
Theorem object_input_accepted_iff_passes fields :
  NoDup (map fst fields) ->
  if forallb (fun kv => passes (snd kv)) fields then
    _parse_input (JDict fields) = Return (map entry fields)
  else exists e, _parse_input (JDict fields) = Raise e.
Proof.
  intros Hn. simpl.
  apply (dict_loop_passes fields fields []); [done|].
  intros [k v] Hkv. by apply getitem_NoDup.
Qed.

Lemma object_input_accepted_iff_passes_witness :
  _parse_input mixed_object
  = Return [(JStr "a.jpg", [JList [JInt 1; JInt 2; JInt 3]; JList [JBool true; JInt 5]]);
            (JStr "b.jpg", [])].
Proof.
  apply (object_input_accepted_iff_passes
           [("a.jpg", JList [JList [JInt 1; JInt 2; JInt 3]; JList [JBool true; JInt 5]]);
            ("b.jpg", JList [])]).
  apply NoDup_cons. split; [|apply NoDup_singleton].
  intros H. apply elem_of_cons in H as [H|H]; [discriminate H|].
  by apply elem_of_nil in H.
Defined.

Lemma key_eqb_refl k : hashable k = true -> key_eqb k k = true.
Proof.
  destruct k; simpl; try done; intros _.
  - apply Qeq_bool_refl.
  - apply Qeq_bool_refl.
  - apply Qeq_bool_refl.
  - apply String.eqb_refl.
Qed.

Lemma setitem_has_key d k v :
  hashable k = true ->
  exists kv, kv ∈ setitem d k v /\ key_eqb (fst kv) k = true.
Proof.
  intros Hk. induction d as [|[k0 v0] d IH]; simpl.
  - exists (k, v). split; [by left | by apply key_eqb_refl].
  - destruct (key_eqb k0 k) eqn:E.
    + exists (k0, v). split; [by left | done].
    + destruct IH as (kv & Hin & Heq). exists kv. split; [by right | done].
Qed.

Lemma setitem_keeps_keys d k v k0 :
  k0 ∈ map fst d -> k0 ∈ map fst (setitem d k v).
Proof.
  induction d as [|[k1 v1] d IH]; simpl; intros Hin.
  - by apply elem_of_nil in Hin.
  - destruct (key_eqb k1 k); simpl; [done|].
    apply elem_of_cons in Hin as [->|Hin]; [by left | right; by apply IH].
Qed.

Lemma list_loop_keys items :
  forall acc d,
    list_loop items acc = Return d ->
    (forall k0, k0 ∈ map fst acc -> k0 ∈ map fst d)
    /\ (forall x, x ∈ items -> exists k0, k0 ∈ map fst d /\ key_eqb k0 x = true).
Proof.
  induction items as [|x items IH]; intros acc d; simpl.
  - intros [= <-]. split; [done|]. intros x Hx. by apply elem_of_nil in Hx.
  - destruct (hashable x) eqn:Hh; [|done]. intros Hd.
    destruct (IH _ _ Hd) as [Hkeep Hitems]. split.
    + intros k0 Hk0. by apply Hkeep, setitem_keeps_keys.
    + intros y Hy. apply elem_of_cons in Hy as [->|Hy]; [|by apply Hitems].
      destruct (setitem_has_key acc x [] Hh) as ([k0 v0] & Hin & Heq).
      exists k0. split; [|done]. apply Hkeep.
      apply list_elem_of_fmap. by exists (k0, v0).
Qed.

Lemma list_loop_unhashable items :
  forall acc, forallb hashable items = false -> list_loop items acc = Raise TypeError.
Proof.
  induction items as [|x items IH]; intros acc; simpl; [done|].
  destruct (hashable x); simpl; [apply IH | done].
Qed.

Lemma list_loop_fresh paths :
  forall done_,
    NoDup (done_ ++ paths) ->
    list_loop (map JStr paths) (map bare done_) = Return (map bare (done_ ++ paths)).
Proof.
  induction paths as [|p paths IH]; intros done_ Hn; simpl.
  - by rewrite app_nil_r.
  - assert (setitem (map bare done_) (JStr p) [] = map bare (done_ ++ [p])) as ->.
    { rewrite map_app. simpl.
      assert (p ∉ done_) as Hp.
      { apply NoDup_app in Hn as (_ & Hd & _). intros Hin. apply (Hd p Hin). by left. }
      clear -Hp. induction done_ as [|q done_ IH]; [done|].
      apply not_elem_of_cons in Hp as [Hne Hp]. simpl.
      destruct (String.eqb_spec q p) as [E|_]; [congruence|]. by rewrite IH. }
    specialize (IH (done_ ++ [p])%list). rewrite <- !app_assoc in IH.
    by apply IH.
Qed.

(** X7. For an array, [_parse_input] looks at nothing but whether the
    elements can be dictionary keys. With a list or an object among them
    it leaves with a [TypeError], never a format error; otherwise it
    returns, numbers and nulls included, every element being a key of the
    result and every hint list empty. For paths that are all different
    the result lists them in their order. *)
Theorem array_input_needs_hashable_elements items :
  (forallb hashable items = false ->
   _parse_input (JList items) = Raise TypeError)
  /\ (forallb hashable items = true ->
      exists d,
        _parse_input (JList items) = Return d
        /\ Forall (fun kv => snd kv = []) d
        /\ (forall x, x ∈ items ->
                      exists k0, k0 ∈ map fst d /\ key_eqb k0 x = true))
  /\ (forall paths,
        items = map JStr paths -> NoDup paths ->
        _parse_input (JList items) = Return (map bare paths)).
Proof.
  split_and!.
  - apply list_loop_unhashable.
  - intros Hh.
    destruct (ParseInputProofs.list_loop_empty_hints items [] Hh) as (d & Hd & He);
      [constructor|].
    exists d. split_and!; [done | done |]. by apply (list_loop_keys items [] d).
  - intros paths -> Hn. apply (list_loop_fresh paths []). done.
Qed.

Lemma array_input_needs_hashable_elements_witness :
  _parse_input (JList [JStr "a.jpg"; JList []]) = Raise TypeError
  /\ (exists d, _parse_input numbers_array = Return d
                /\ Forall (fun kv => snd kv = []) d)
  /\ _parse_input (JList [JStr "a.jpg"; JStr "b.jpg"])
     = Return [(JStr "a.jpg", []); (JStr "b.jpg", [])].
Proof.
  split_and!.
  - by apply (array_input_needs_hashable_elements [JStr "a.jpg"; JList []]).
  - destruct (array_input_needs_hashable_elements [JInt 1; JNull; JStr "a.jpg"])
      as (_ & H & _).
    destruct (H eq_refl) as (d & Hd & He & _). by exists d.
  - destruct (array_input_needs_hashable_elements [JStr "a.jpg"; JStr "b.jpg"])
      as (_ & _ & H).
    apply (H ["a.jpg"; "b.jpg"]); [done|].
    apply NoDup_cons. split; [|apply NoDup_singleton].
    intros Hin. apply elem_of_cons in Hin as [Hin|Hin]; [discriminate Hin|].
    by apply elem_of_nil in Hin.
Defined.

End ParseInputShapeProofs.

(** ** The annotation session: longer runs *)

Module FlattenerRunsProofs.
Import Flattener FlattenerRuns FlattenerProofs.

Lemma running_phase s :
  finished s = false ->
  phase_of s
  = if negb (img_flattened s) then CollectingCorners
    else if is_flat (cv_img s) then Flattened else AwaitingDimensions.
Proof. intros H. unfold phase_of. by rewrite H. Qed.

(** X8. At every point of a run that is not over: while corners are
    collected the click list has fewer than four entries and the canvas
    shows an unflattened image; while dimensions are awaited it has
    exactly four; once the panel is flattened it is empty. And a pop-up
    with a 'Use Last' button is open only when dimensions are stored. *)
Theorem phases_and_click_list s :
  reachable s ->
  finished s = false ->
  match phase_of s with
  | CollectingCorners => (length (clicks s) < 4)%nat /\ is_flat (cv_img s) = false
  | AwaitingDimensions => length (clicks s) = 4%nat
  | Flattened => clicks s = []
  | Finished => False
  end
  /\ (forall d, d ∈ popups s -> use_last d = true -> is_Some (dim s)).
Proof.
  intros Hr Hf. destruct (reachable_consistent s Hr) as [Hc Hp].
  specialize (Hc Hf). rewrite running_phase by done. split.
  - destruct (img_flattened s); simpl; [|done].
    destruct Hc as [[Hl ->]|[Hl ->]]; done.
  - intros d Hd. by apply (proj1 (Forall_forall _ _) Hp).
Qed.

Lemma phases_and_click_list_witness :
  length (clicks awaiting) = 4%nat /\ clicks flattened = [].
Proof.
  split.
  - destruct (phases_and_click_list awaiting reachable_awaiting eq_refl) as [H _].
    exact H.
  - destruct (phases_and_click_list flattened) as [H _]; [|reflexivity|exact H].
    apply reachable_run, reachable_awaiting.
Defined.

Lemma flatten_raises s e s' :
  _flatten_img s = Flattener.Raised e s' ->
  s' = s
  /\ ((e = AssertionError /\ length (clicks s) <> 4%nat)
      \/ (e = TypeError /\ dim s = None)).
Proof.
  unfold _flatten_img. destruct (Nat.eqb_spec (length (clicks s)) 4) as [E|E].
  - destruct (dim s) as [[short long]|]; [done|]. intros [= <- <-]. split; [done|]. by right.
  - intros [= <- <-]. split; [done|]. by left.
Qed.

(** X9. In a run, [_flatten_img] is never entered with [self.dim] still
    [None]: 'Done' assigns the dimensions before it calls it, and a
    'Use Last' button exists only in a pop-up created with dimensions
    stored. So [self.dim[0]] never fails on [None]. *)
Theorem dimensions_are_stored_when_flattening s e s' :
  reachable s ->
  step e s <> Some (Flattener.Raised TypeError s').
Proof.
  intros Hr Hs. pose proof (reachable_consistent s Hr) as [_ Hp].
  unfold step in Hs. destruct (finished s); [done|].
  destruct e as [p|i a b|i| | |]; try done.
  - destruct (popups s !! i); [|done]. injection Hs as Hs. unfold done in Hs.
    destruct a as [|short]; [done|]. destruct b as [|long]; [done|].
    apply flatten_raises in Hs as [_ [[Hex _]|[_ Hnone]]]; [done|].
    by destruct s.
  - destruct (popups s !! i) as [d|] eqn:Hi; [|done].
    destruct (use_last d) eqn:Hu; [|done]. injection Hs as Hs. unfold skip in Hs.
    apply flatten_raises in Hs as [_ [[Hex _]|[_ Hnone]]]; [done|].
    eapply Forall_lookup_1 in Hp; [|exact Hi].
    destruct (Hp Hu) as [x Hx]. destruct s; simpl in *. congruence.
Qed.

Lemma dimensions_are_stored_when_flattening_witness :
  step (Done 0 (PyFloat.Value fifty) (PyFloat.Value hundred)) reloaded_with_popup
  <> Some (Flattener.Raised TypeError reloaded_with_popup).
Proof.
  apply (dimensions_are_stored_when_flattening reloaded_with_popup).
  apply reachable_run, reachable_awaiting.
Defined.



(** X11. A reload leaves the dimension pop-ups open. 'Done' pressed in
    one of them afterwards, with two entries for which [float] returns,
    fails the assertion of [_flatten_img], but only after it has
    overwritten the stored dimensions and closed the pop-up; the image
    stays the reloaded source and the session goes on collecting corners. *)
Theorem done_after_reload_stores_then_fails s i d short long :
  finished s = false ->
  popups s !! i = Some d ->
  popups (reload s) = popups s
  /\ exists s',
       step (Done i (PyFloat.Value short) (PyFloat.Value long)) (reload s)
       = Some (Flattener.Raised AssertionError s')
       /\ dim s' = Some (short, long)
       /\ popups s' = delete i (popups s)
       /\ cv_img s' = Source (curr_path s)
       /\ phase_of s' = CollectingCorners.
Proof.
  intros Hf Hi. split; [by destruct s|].
  eexists. unfold step.
  replace (finished (reload s)) with false by by destruct s.
  replace (popups (reload s)) with (popups s) by by destruct s.
  rewrite Hi. unfold done, _flatten_img.
  split; [by destruct s|]. unfold phase_of. destruct s; fields. by subst.
Qed.

Lemma done_after_reload_stores_then_fails_witness :
  exists s',
    step (Done 0 (PyFloat.Value fifty) (PyFloat.Value hundred)) reloaded_with_popup
    = Some (Flattener.Raised AssertionError s')
    /\ dim s' = Some (fifty, hundred).
Proof.
  destruct (done_after_reload_stores_then_fails awaiting 0 {| use_last := false |}
              fifty hundred)
    as (_ & s' & H1 & H2 & _); [reflexivity | reflexivity |].
  exists s'. split; [exact H1 | exact H2].
Defined.

(** X12. The stored dimensions are sticky: a run in which no 'Done' has
    two entries for which [float] returns, whatever clicks, reloads,
    saves, next-images, 'Use Last' and failed entries it holds, leaves
    them as they were. *)
Theorem dimensions_are_sticky es s :
  Forall (fun e => enters_dimensions e = false) es ->
  dim (run es s) = dim s.
Proof.
  revert s. induction es as [|e es IH]; intros s Hes; [done|].
  apply Forall_cons in Hes as [He Hes]. simpl. rewrite IH by done.
  destruct (dim_after e s) as [->|(i & x & y & -> & _)]; [done|].
  discriminate He.
Qed.

Lemma dimensions_are_sticky_witness :
  dim (run [Save; Click (1, 1); Done 0 PyFloat.ValueError (PyFloat.Value three);
            Next; Reload] flattened)
  = Some (fifty, hundred).
Proof.
  rewrite (dimensions_are_sticky
             [Save; Click (1, 1); Done 0%nat PyFloat.ValueError (PyFloat.Value three);
              Next; Reload] flattened).
  - reflexivity.
  - repeat constructor.
Defined.

Lemma books_flatten s :
  saved (Flattener.state_of (_flatten_img s)) = saved s
  /\ written (Flattener.state_of (_flatten_img s)) = written s
  /\ num_saved (Flattener.state_of (_flatten_img s)) = num_saved s.
Proof.
  unfold _flatten_img. destruct (_ =? _)%nat; [|done].
  destruct (dim s) as [[short long]|]; [|done]. by destruct s.
Qed.

(** An event leaves the manifest and the files written alone, or adds the
    same path to both. *)
Lemma books_after e s :
  (saved (after e s) = saved s /\ written (after e s) = written s)
  \/ exists p,
       saved (after e s) = <[p := dim s]> (saved s)
       /\ written (after e s) = (written s ++ [(p, cv_img s)])%list.
Proof.
  unfold after, step. destruct (finished s); [by left|].
  destruct e as [q|i a b|i| | |]; simpl.
  - left.
    destruct (left_mouse_down_cases q s) as [[E ->]|[(E & Hl & ->)|(E & Hl & ->)]];
      by destruct s.
  - left. destruct (popups s !! i); [|done]. unfold done.
    destruct a as [|f]; [by destruct s|].
    destruct b as [|f0]; [by destruct s|].
    destruct (books_flatten (destroy i (set_dim (Some (f, f0)) s))) as (-> & -> & _).
    by destruct s.
  - left. destruct (popups s !! i) as [d|]; [|done].
    destruct (use_last d); [|done]. unfold skip.
    destruct (books_flatten (destroy i s)) as (-> & -> & _). by destruct s.
  - left. by destruct s.
  - destruct (img_flattened s) eqn:E.
    + right. destruct (save_flagged s E) as (Hw & Hs & _). eauto.
    + left. by rewrite save_unflagged.
  - left. unfold next_file, load_next_img_or_end. destruct s; simpl.
    by destruct pending0.
Qed.

(** X13. In a run the manifest has an entry under a path exactly when an
    image file was written to that path; no event takes a file or an
    entry back: the files written so far stay a prefix of those written
    later, and a path of the manifest stays one. *)
Theorem manifest_lists_the_files_written s :
  reachable s ->
  (forall p, is_Some (saved s !! p) <-> p ∈ map fst (written s))
  /\ (forall e, written s `prefix_of` written (after e s))
  /\ (forall e p, is_Some (saved s !! p) -> is_Some (saved (after e s) !! p)).
Proof.
  intros Hr. split_and!.
  - induction Hr as [path rest folder|e s Hr IH]; intros p.
    + simpl. rewrite lookup_empty. split; [by intros [? ?]|].
      intros H. by apply elem_of_nil in H.
    + destruct (books_after e s) as [[-> ->]|(q & -> & ->)]; [done|].
      rewrite map_app, elem_of_app. simpl.
      destruct (decide (q = p)) as [->|Hne].
      * rewrite lookup_insert_eq. split; [intros _; right; by left | by eexists].
      * rewrite lookup_insert_ne by done. rewrite IH. split; [by left|].
        intros [H|H]; [done|]. apply elem_of_cons in H as [H|H]; [congruence|].
        by apply elem_of_nil in H.
  - intros e. destruct (books_after e s) as [[_ ->]|(q & _ & ->)]; [done|].
    by apply prefix_app_r.
  - intros e p Hp. destruct (books_after e s) as [[-> _]|(q & -> & _)]; [done|].
    destruct (decide (q = p)) as [->|Hne].
    + rewrite lookup_insert_eq. by eexists.
    + by rewrite lookup_insert_ne.
Qed.

Lemma manifest_lists_the_files_written_witness :
  "out/a_flat.jpg" ∈ map fst (written (run [Save] flattened)).
Proof.
  destruct (manifest_lists_the_files_written (run [Save] flattened)) as [H _].
  - do 2 apply reachable_run. apply reachable_awaiting.
  - apply (H "out/a_flat.jpg"). by eexists.
Defined.





End FlattenerRunsProofs.

(** ** The earlier copy of the session *)

Module EarlierCopyProofs.
Import Flattener EarlierCopy FlattenerProofs.

Lemma state_of_lift o : state_of (lift o) = Flattener.state_of o.
Proof. by destruct o. Qed.

Lemma num_saved_flatten s :
  num_saved (Flattener.state_of (_flatten_img s)) = num_saved s.
Proof.
  unfold _flatten_img. destruct (_ =? _)%nat; [|done].
  destruct (dim s) as [[short long]|]; [|done]. by destruct s.
Qed.

(** Every callback but [save] leaves the counter alone or resets it. *)
Lemma num_saved_step e s o :
  e <> Save ->
  Flattener.step e s = Some o ->
  num_saved (Flattener.state_of o) = num_saved s
  \/ num_saved (Flattener.state_of o) = 0%nat.
Proof.
  intros He. unfold Flattener.step. destruct (finished s); [done|].
  destruct e as [q|i a b|i| | |]; try done.
  - intros [= <-]. left. simpl.
    destruct (left_mouse_down_cases q s) as [[E ->]|[(E & Hl & ->)|(E & Hl & ->)]];
      by destruct s.
  - destruct (popups s !! i); [|done]. intros [= <-]. left. unfold done.
    destruct a as [|f]; [by destruct s|].
    destruct b as [|f0]; [by destruct s|].
    rewrite num_saved_flatten. by destruct s.
  - destruct (popups s !! i) as [d|]; [|done].
    destruct (use_last d); [|done]. intros [= <-]. left. unfold skip.
    rewrite num_saved_flatten. by destruct s.
  - intros [= <-]. left. by destruct s.
  - intros [= <-]. right. simpl. unfold next_file, load_next_img_or_end.
    destruct s; simpl. by destruct pending0.
Qed.

(** X15. In the copy of [gui.py], when the base class provides no
    attribute [_num_saved], at most one panel is saved per image: the
    counter never passes 1, and with the counter at 1 a [save] of a
    flattened panel leaves with an [AttributeError] before anything is
    written, the session staying as it was. *)
Theorem earlier_copy_saves_once_per_image s :
  EarlierCopy.reachable s ->
  (num_saved s <= 1)%nat
  /\ (img_flattened s = true -> num_saved s = 1%nat ->
      EarlierCopy.save None s = EarlierCopy.Raised AttributeError s
      /\ EarlierCopy.after None Save s = s).
Proof.
  intros Hr. split.
  - induction Hr as [path rest folder|e s Hr IH]; [simpl; lia|].
    unfold after, step. destruct (finished s); [done|].
    assert (e = Save \/ e <> Save) as [->|He] by (destruct e; auto; by right).
    + simpl. unfold save. destruct (img_flattened s); [|done].
      destruct (Nat.ltb_spec 0 (num_saved s)); [done|].
      unfold record_and_reload, save_img_to_folder_with_extra.
      destruct s; simpl in *. lia.
    + assert (match e with
              | Save => Some (save None s)
              | _ => lift <$> Flattener.step e s
              end = lift <$> Flattener.step e s) as -> by by destruct e.
      destruct (Flattener.step e s) as [o|] eqn:Eo; [|done]. simpl.
      rewrite state_of_lift.
      destruct (num_saved_step e s o He Eo) as [-> | ->]; lia.
  - intros Hg Hn. assert (save None s = Raised AttributeError s) as Hs.
    { unfold save. by rewrite Hg, Hn. }
    split; [done|]. unfold after, step.
    destruct (finished s); [done|]. by rewrite Hs.
Qed.

Lemma earlier_copy_saves_once_per_image_witness :
  EarlierCopy.save None flattened_again
  = EarlierCopy.Raised AttributeError flattened_again.
Proof.
  destruct (earlier_copy_saves_once_per_image flattened_again) as [_ H].
  - unfold flattened_again, four_corners. simpl fold_left.
    repeat apply reachable_after.
    assert (flattened
            = after None (Done 0 (PyFloat.Value fifty) (PyFloat.Value hundred)) awaiting)
      as -> by reflexivity.
    apply reachable_after.
    assert (awaiting
            = after None (Click (10, 60))
                (after None (Click (110, 60))
                   (after None (Click (110, 10))
                      (after None (Click (10, 10)) (init "a.jpg" [] "out")))))
      as -> by reflexivity.
    repeat apply reachable_after. apply reachable_init.
  - by destruct (H eq_refl eq_refl).
Defined.

End EarlierCopyProofs.
